(** * AI-Labworks: the validated product-listing pipeline

    A shallow embedding of [src/validate_json_step3.py] and
    [src/step4_integration.py]: the two Pydantic schemas, the three pipeline
    stages ([validate_input], [call_chatgpt], [validate_chatgpt_response]) and
    the orchestrator [process_product_request].

    Conventions of the embedding.
    - A Python [str] is a [string]; each [ascii] is one character, read as
      the code point of that number (U+0000 to U+00FF).  [len] is [length].
      The literals of the source that hold characters beyond U+00FF (the
      check marks, bullets and arrows of its console messages) are written
      as they stand in the source file, that is as their UTF-8 bytes.
    - A Python [float] is a [spec_float] of the binary64 format.
    - A function that prints and may raise is a computation of type [io A]:
      the lines it printed, in order, and either a returned value or the
      exception that escaped it.
    - Pydantic, [json.loads], the formatting of floats and the remote model
      are not code of this repository.  Pydantic's validation of the declared
      schemas is written out in [Module Pydantic]; the other three are taken
      from a [Runtime] record and a [client] function, for which
      [Module Reference] gives executable instances. *)

From Stdlib Require Import ZArith List String Ascii Bool Lia.
From Stdlib Require Import Floats.SpecFloat.
From Stdlib Require Import Numbers.DecimalString.
Import ListNotations.

Set Warnings "-register-all".

Open Scope list_scope.
Open Scope string_scope.

(* ================================================================== *)
(** * Python values *)
(* ================================================================== *)

Module Py.

(** ** Characters and strings *)

Definition nl : string := String (ascii_of_nat 10) EmptyString.
Definition dq : string := String (ascii_of_nat 34) EmptyString.

(** [s * n] for a string [s]. *)
Fixpoint str_mul (s : string) (n : nat) : string :=
  match n with
  | O => EmptyString
  | S n' => s ++ str_mul s n'
  end.

Definition in_range (lo hi : nat) (c : ascii) : bool :=
  let n := nat_of_ascii c in (lo <=? n)%nat && (n <=? hi)%nat.

(** [c.isalpha()]: the letters (general category L) among U+0000..U+00FF. *)
Definition isalpha (c : ascii) : bool :=
  let n := nat_of_ascii c in
  in_range 65 90 c || in_range 97 122 c
  || (n =? 170)%nat || (n =? 181)%nat || (n =? 186)%nat
  || in_range 192 214 c || in_range 216 246 c || in_range 248 255 c.

(** [c.isspace()]: what [str.strip()] removes, among U+0000..U+00FF. *)
Definition isspace (c : ascii) : bool :=
  let n := nat_of_ascii c in
  in_range 9 13 c || in_range 28 32 c || (n =? 133)%nat || (n =? 160)%nat.

(** [any(p(c) for c in s)] *)
Fixpoint any (p : ascii -> bool) (s : string) : bool :=
  match s with
  | EmptyString => false
  | String c r => p c || any p r
  end.

Fixpoint lstrip (s : string) : string :=
  match s with
  | EmptyString => EmptyString
  | String c r => if isspace c then lstrip r else s
  end.

Fixpoint rstrip (s : string) : string :=
  match s with
  | EmptyString => EmptyString
  | String c r =>
      match rstrip r with
      | EmptyString => if isspace c then EmptyString else String c EmptyString
      | r' => String c r'
      end
  end.

(** [s.strip()] *)
Definition strip (s : string) : string := rstrip (lstrip s).

(** [s.startswith(p)] *)
Fixpoint startswith (s p : string) {struct p} : bool :=
  match p with
  | EmptyString => true
  | String a p' =>
      match s with
      | EmptyString => false
      | String b s' => Ascii.eqb a b && startswith s' p'
      end
  end.

(** [s[i:-j]] for literal [i] and [j > 0]: from index [i] up to, not
    including, index [len(s) - j]; empty when the two cross. *)
Definition slice_from_to_end (s : string) (i j : nat) : string :=
  substring i (length s - j - i) s.

(** [sub in s] *)
Definition contains (s sub : string) : Prop :=
  exists before after, s = before ++ sub ++ after.

(** [sep.join(l)] *)
Definition join (sep : string) (l : list string) : string := String.concat sep l.

(** [str(n)] for a non-negative [int]. *)
Definition str_of_nat (n : nat) : string := NilEmpty.string_of_uint (Nat.to_uint n).

(** ASCII lower case, as Rust's [eq_ignore_ascii_case] compares. *)
Definition lower_ascii (c : ascii) : ascii :=
  if in_range 65 90 c then ascii_of_nat (nat_of_ascii c + 32) else c.

Fixpoint lower (s : string) : string :=
  match s with
  | EmptyString => EmptyString
  | String c r => String (lower_ascii c) (lower r)
  end.

(** ** Floats (binary64) *)

Definition pyfloat := spec_float.

Definition float_of_Z (z : Z) : pyfloat := binary_normalize 53 1024 z 0 false.

Definition f_zero : pyfloat := S754_zero false.
Definition f_one : pyfloat := Eval cbv in float_of_Z 1.
Definition f_million : pyfloat := Eval cbv in float_of_Z 1000000.

(** [x <= y] and [x > y] on floats; both false when a NaN is compared. *)
Definition fle (x y : pyfloat) : bool := SFleb x y.
Definition fgt (x y : pyfloat) : bool := SFltb y x.

(** ** The enumeration [ProductCategory(str, Enum)]

    Both source files declare it with the same five members; its members are
    Python objects and so belong to the values below. *)

Inductive ProductCategory :=
| ELECTRONICS | CLOTHING | HOME_GOODS | BOOKS | OTHER.

(** [member.value] *)
Definition category_value (c : ProductCategory) : string :=
  match c with
  | ELECTRONICS => "electronics"
  | CLOTHING => "clothing"
  | HOME_GOODS => "home_goods"
  | BOOKS => "books"
  | OTHER => "other"
  end.

Definition all_categories : list ProductCategory :=
  [ELECTRONICS; CLOTHING; HOME_GOODS; BOOKS; OTHER].

(** [ProductCategory(s)]: the member whose value is [s]. *)
Definition category_of_value (s : string) : option ProductCategory :=
  find (fun c => String.eqb (category_value c) s) all_categories.

(** ** Values

    What [json.loads] produces ([None], [bool], [int], [float], [str],
    [list], [dict] with [str] keys), and the members of [ProductCategory],
    which [.dict()] leaves in its result.  A [dict] is the list of its items
    in insertion order; its keys are distinct. *)

Inductive pyval :=
| PNone
| PBool (b : bool)
| PInt (z : Z)
| PFloat (f : pyfloat)
| PStr (s : string)
| PList (l : list pyval)
| PDict (d : list (string * pyval))
| PEnum (c : ProductCategory).

Definition pydict := list (string * pyval).

(** [d.get(k)] *)
Fixpoint dict_get (k : string) (d : pydict) : option pyval :=
  match d with
  | [] => None
  | (k', v) :: r => if String.eqb k' k then Some v else dict_get k r
  end.

(** [d[k] = v] *)
Fixpoint dict_set (k : string) (v : pyval) (d : pydict) : pydict :=
  match d with
  | [] => [(k, v)]
  | (k', v') :: r =>
      if String.eqb k' k then (k', v) :: r else (k', v') :: dict_set k v r
  end.

(** [k in d] *)
Definition dict_mem (k : string) (d : pydict) : bool :=
  match dict_get k d with Some _ => true | None => false end.

(** [k in v] and [v[k]] for a result [v] that is a [dict]. *)
Definition has_key (k : string) (v : pyval) : bool :=
  match v with
  | PDict d => dict_mem k d
  | _ => false
  end.

Definition item (k : string) (v : pyval) : option pyval :=
  match v with
  | PDict d => dict_get k d
  | _ => None
  end.

(** ** What the embedding takes from the Python runtime *)

(** [json.loads] on a [str] returns the value, or raises
    [json.JSONDecodeError] when the text is no JSON document, or raises one
    of two other exceptions: [RecursionError] when the document nests deeper
    than the interpreter's recursion limit leaves room for, and [ValueError]
    when an integer literal has more digits than [int] converts (4300 by
    default, since Python 3.11). *)

Inductive loads_exn := RecursionError | ValueError.

Inductive loads_result :=
| Loaded (v : pyval)
| JSONDecodeError
| LoadsRaises (e : loads_exn).

(** - [json_loads s]: what [json.loads(s)] does;
    - [float_str f]: a float as an f-string renders it;
    - [enum_format c]: a member of [ProductCategory] as an f-string renders
      it (its value before Python 3.11, [ProductCategory.NAME] since);
    - [str_as_float s]: the float Pydantic reads from a numeric string in lax
      mode, [None] when it reports [float_parsing]. *)

Record Runtime := {
  json_loads : string -> loads_result;
  float_str : pyfloat -> string;
  enum_format : ProductCategory -> string;
  str_as_float : string -> option pyfloat
}.

End Py.
Export Py.

(* ================================================================== *)
(** * Pydantic: validation of the declared field types *)
(* ================================================================== *)

Module Pydantic.

(** What Pydantic 2 does, in its default (lax) mode, with the field types
    and constraints that the two source files declare, on the values of
    [pyval].  Keys that no field names are ignored.  The messages are worded
    as Pydantic words them; the keys [input], [ctx] and [url] of an error are
    left out. *)

(** ** Errors: the items of [ValidationError.errors()] *)

Inductive loc_item := LocKey (k : string) | LocIndex (i : nat).

(** [str(loc)] for one item of [error['loc']] *)
Definition str_of_loc (l : loc_item) : string :=
  match l with
  | LocKey k => k
  | LocIndex i => str_of_nat i
  end.

(** The keys of an error that the source reads: [type], [loc], [msg]. *)
Record ErrorDetails := {
  err_type : string;
  err_loc : list loc_item;
  err_msg : string
}.

Definition error (t m : string) : ErrorDetails :=
  {| err_type := t; err_loc := []; err_msg := m |}.

Definition at_loc (l : loc_item) (e : ErrorDetails) : ErrorDetails :=
  {| err_type := err_type e; err_loc := l :: err_loc e; err_msg := err_msg e |}.

(** ** Results: a value, or every error found *)

Inductive validation (A : Type) :=
| Valid (a : A)
| Invalid (errors : list ErrorDetails).
Arguments Valid {A} a.
Arguments Invalid {A} errors.

Definition is_valid {A} (v : validation A) : bool :=
  match v with Valid _ => true | Invalid _ => false end.

Definition errors_of {A} (v : validation A) : list ErrorDetails :=
  match v with Valid _ => [] | Invalid es => es end.

Definition vmap {A B} (f : A -> B) (v : validation A) : validation B :=
  match v with
  | Valid a => Valid (f a)
  | Invalid es => Invalid es
  end.

(** The fields of a model are validated one after the other, in the order of
    their declaration, and the errors of all of them are collected. *)
Definition vap {A B} (f : validation (A -> B)) (v : validation A) : validation B :=
  match f, v with
  | Valid g, Valid a => Valid (g a)
  | Valid _, Invalid es => Invalid es
  | Invalid es, Valid _ => Invalid es
  | Invalid es, Invalid es' => Invalid (es ++ es')%list
  end.

Definition under {A} (l : loc_item) (v : validation A) : validation A :=
  match v with
  | Valid a => Valid a
  | Invalid es => Invalid (map (at_loc l) es)
  end.

Definition plural (n : nat) : string :=
  if (n =? 1)%nat then EmptyString else "s".

(** ** [str], with [Field(min_length=..., max_length=...)] *)

(** A [str], or an instance of a subclass of it, read as a string. *)
Definition as_str (x : pyval) : option string :=
  match x with
  | PStr s => Some s
  | PEnum c => Some (category_value c)
  | _ => None
  end.

Definition str_schema (min_length max_length : option nat) (x : pyval)
  : validation string :=
  match as_str x with
  | None => Invalid [error "string_type" "Input should be a valid string"]
  | Some s =>
      if match min_length with Some n => (length s <? n)%nat | None => false end
      then Invalid [error "string_too_short"
             ("String should have at least "
              ++ str_of_nat (match min_length with Some n => n | None => 0 end)
              ++ " character"
              ++ plural (match min_length with Some n => n | None => 0 end))]
      else if match max_length with Some n => (n <? length s)%nat | None => false end
      then Invalid [error "string_too_long"
             ("String should have at most "
              ++ str_of_nat (match max_length with Some n => n | None => 0 end)
              ++ " character"
              ++ plural (match max_length with Some n => n | None => 0 end))]
      else Valid s
  end.

(** ** [Optional[T]] *)

Definition optional_schema {A} (schema : pyval -> validation A) (x : pyval)
  : validation (option A) :=
  match x with
  | PNone => Valid None
  | _ => vmap Some (schema x)
  end.

(** ** [float], with [Field(gt=...)]; lax mode *)

Definition is_finite (f : pyfloat) : bool :=
  match f with
  | S754_zero _ | S754_finite _ _ _ => true
  | _ => false
  end.

Section WithRuntime.
Variable rt : Runtime.

Definition float_parsing : ErrorDetails :=
  error "float_parsing"
        "Input should be a valid number, unable to parse string as a number".
Definition float_type : ErrorDetails :=
  error "float_type" "Input should be a valid number".

Definition to_float (x : pyval) : validation pyfloat :=
  match x with
  | PFloat f => Valid f
  | PStr s =>
      match str_as_float rt s with
      | Some f => Valid f
      | None => Invalid [float_parsing]
      end
  | PEnum c =>
      match str_as_float rt (category_value c) with
      | Some f => Valid f
      | None => Invalid [float_parsing]
      end
  | PInt z =>
      (* [float(z)] raises OverflowError when [z] is out of range *)
      if is_finite (float_of_Z z) then Valid (float_of_Z z)
      else Invalid [float_type]
  | PBool b => Valid (if b then f_one else f_zero)
  | _ => Invalid [float_type]
  end.

(** [Field(gt=0)] on a float: the value must compare greater than 0. *)
Definition float_gt0_schema (x : pyval) : validation pyfloat :=
  match to_float x with
  | Invalid es => Invalid es
  | Valid f =>
      if fgt f f_zero then Valid f
      else Invalid [error "greater_than" "Input should be greater than 0"]
  end.

End WithRuntime.

(** ** [bool]; lax mode *)

Definition bool_parsing : ErrorDetails :=
  error "bool_parsing" "Input should be a valid boolean, unable to interpret input".

Definition str_as_bool (s : string) : validation bool :=
  let l := lower s in
  if String.eqb s "0" || existsb (String.eqb l) ["f"; "n"; "no"; "off"; "false"]
  then Valid false
  else if String.eqb s "1" || existsb (String.eqb l) ["t"; "y"; "on"; "yes"; "true"]
  then Valid true
  else Invalid [bool_parsing].

Definition bool_type : ErrorDetails :=
  error "bool_type" "Input should be a valid boolean".

(** The integer that a float stands for, when it is one and lies strictly
    between [-2^63] and [2^63]. *)
Definition float_as_int (f : pyfloat) : option Z :=
  match f with
  | S754_zero _ => Some 0%Z
  | S754_finite s m e =>
      let integral := (0 <=? e)%Z || (Zpos m mod 2 ^ (- e) =? 0)%Z in
      let z := if (0 <=? e)%Z then (Zpos m * 2 ^ e)%Z else (Zpos m / 2 ^ (- e))%Z in
      if integral && (z <? 2 ^ 63)%Z then Some (if s then (- z)%Z else z)
      else None
  | _ => None
  end.

(** An [int] of 64 bits is read as a boolean when it is 0 or 1; a float, or
    an [int] beyond 64 bits taken as a float, when it stands for such an
    integer.  What stands for another integer of 64 bits cannot be
    interpreted ([bool_parsing]); anything else is no boolean ([bool_type]). *)
Definition bool_schema (x : pyval) : validation bool :=
  match x with
  | PBool b => Valid b
  | PStr s => str_as_bool s
  | PEnum c => str_as_bool (category_value c)
  | PInt 0 => Valid false
  | PInt 1 => Valid true
  | PInt z =>
      if (- 2 ^ 63 <=? z)%Z && (z <? 2 ^ 63)%Z then Invalid [bool_parsing]
      else Invalid [bool_type]
  | PFloat f =>
      match float_as_int f with
      | Some 0%Z => Valid false
      | Some 1%Z => Valid true
      | Some _ => Invalid [bool_parsing]
      | None => Invalid [bool_type]
      end
  | _ => Invalid [bool_type]
  end.

(** ** [ProductCategory] *)

Definition category_schema (x : pyval) : validation ProductCategory :=
  match x with
  | PEnum c => Valid c
  | PStr s =>
      match category_of_value s with
      | Some c => Valid c
      | None => Invalid [error "enum"
          "Input should be 'electronics', 'clothing', 'home_goods', 'books' or 'other'"]
      end
  | _ => Invalid [error "enum"
          "Input should be 'electronics', 'clothing', 'home_goods', 'books' or 'other'"]
  end.

(** ** [List[T]], with [Field(min_length=..., max_length=...)]

    A list that is too long is reported as such, without the errors of its
    items; otherwise the items are validated, each error under its index,
    and the length of the validated list is checked last. *)

Fixpoint items_schema {A} (schema : pyval -> validation A) (i : nat)
  (l : list pyval) : validation (list A) :=
  match l with
  | [] => Valid []
  | x :: r =>
      vap (vmap cons (under (LocIndex i) (schema x))) (items_schema schema (S i) r)
  end.

Definition list_schema {A} (schema : pyval -> validation A)
  (min_length max_length : nat) (x : pyval) : validation (list A) :=
  match x with
  | PList l =>
      if (max_length <? List.length l)%nat
      then Invalid [error "too_long"
             ("List should have at most " ++ str_of_nat max_length ++ " item"
              ++ plural max_length ++ " after validation, not "
              ++ str_of_nat (List.length l))]
      else
        match items_schema schema 0 l with
        | Invalid es => Invalid es
        | Valid out =>
            if (List.length out <? min_length)%nat
            then Invalid [error "too_short"
                   ("List should have at least " ++ str_of_nat min_length ++ " item"
                    ++ plural min_length ++ " after validation, not "
                    ++ str_of_nat (List.length out))]
            else Valid out
        end
  | _ => Invalid [error "list_type" "Input should be a valid list"]
  end.

(** ** [@field_validator(...)]: a function run on the validated field

    The function returns its result ([inr]) or raises [ValueError(m)]
    ([inl m]); it only runs once the field's own constraints passed. *)

Definition field_validator {A B} (f : A -> string + B) (v : validation A)
  : validation B :=
  match v with
  | Invalid es => Invalid es
  | Valid a =>
      match f a with
      | inl m => Invalid [error "value_error" ("Value error, " ++ m)]
      | inr b => Valid b
      end
  end.

(** ** Models *)

(** One field of a model: looked up by name among the keyword arguments;
    a field that is absent takes its default, and is an error without one. *)
Definition field {A} (k : string) (default : option A)
  (schema : pyval -> validation A) (d : pydict) : validation A :=
  match dict_get k d with
  | Some x => under (LocKey k) (schema x)
  | None =>
      match default with
      | Some a => Valid a
      | None => Invalid [at_loc (LocKey k) (error "missing" "Field required")]
      end
  end.

(** A field whose type is a model takes a [dict] of that model's fields. *)
Definition model_schema {A} (name : string) (fields : pydict -> validation A)
  (x : pyval) : validation A :=
  match x with
  | PDict d => fields d
  | _ => Invalid [error "model_type"
           ("Input should be a valid dictionary or instance of " ++ name)]
  end.

End Pydantic.
Export Pydantic.

(* ================================================================== *)
(** * Exceptions and console output *)
(* ================================================================== *)

Module Effects.

(** What the remote client may raise: [str(e)], and whether the class of [e]
    derives from [Exception] ([KeyboardInterrupt] and [SystemExit] do not). *)
Record client_exn := {
  is_Exception : bool;
  exn_str : string
}.

(** The exceptions that a stage can let out: [TypeError] and
    [ValidationError] from the construction of a model, what the client
    raises, and what [json.loads] raises besides [json.JSONDecodeError]
    (which its one caller always handles). *)
Inductive pyexn :=
| TypeError
| ValidationError (errors : list ErrorDetails)
| ClientExn (e : client_exn)
| LoadsExn (e : loads_exn).

Inductive outcome (A : Type) :=
| Returns (a : A)
| Raises (e : pyexn).
Arguments Returns {A} a.
Arguments Raises {A} e.

(** A computation: the lines printed, then how it ended. *)
Definition io (A : Type) : Type := list string * outcome A.

Definition ret {A} (a : A) : io A := ([], Returns a).
Definition raise {A} (e : pyexn) : io A := ([], Raises e).
Definition print (s : string) : io unit := ([s], Returns tt).

Definition bind {A B} (m : io A) (k : A -> io B) : io B :=
  match m with
  | (out, Returns a) => let (out', r) := k a in ((out ++ out')%list, r)
  | (out, Raises e) => (out, Raises e)
  end.

Definition stdout {A} (m : io A) : list string := fst m.
Definition result {A} (m : io A) : outcome A := snd m.

(** [for x in l: body(x)] *)
Fixpoint for_each {A} (l : list A) (body : A -> io unit) : io unit :=
  match l with
  | [] => ret tt
  | x :: r => bind (body x) (fun _ => for_each r body)
  end.

(** A model built from [data] unpacked as keyword arguments: a [TypeError]
    unless [data] is a mapping, otherwise the validated model or a
    [ValidationError] with all the errors. *)
Definition construct {A} (fields : pydict -> validation A) (data : pyval)
  : outcome A :=
  match data with
  | PDict d =>
      match fields d with
      | Valid a => Returns a
      | Invalid es => Raises (ValidationError es)
      end
  | _ => Raises TypeError
  end.

End Effects.
Export Effects.

Notation "x <- m ;; k" := (bind m (fun x => k))
  (at level 61, m at next level, right associativity).
Notation "m ;; k" := (bind m (fun _ => k))
  (at level 61, right associativity).
Notation "f <*> v" := (vap f v) (at level 50, left associativity).

(* ================================================================== *)
(** * validate_json_step3.py: the schema with both field validators *)
(* ================================================================== *)

Module Step3.

Record Product := {
  name : string;
  price : pyfloat;
  category : ProductCategory;
  description : option string;
  brand : option string;
  in_stock : bool
}.

Record ProductListingRequest := {
  product : Product;
  target_audience : string;
  tone : string;
  language : string
}.

(** [Product.price_not_too_high] *)
Definition price_not_too_high (v : pyfloat) : string + pyfloat :=
  if fgt v f_million then inl "Price seems unrealistically high"
  else inr v.

(** [Product.name_must_contain_letters] *)
Definition name_must_contain_letters (v : string) : string + string :=
  if negb (any isalpha v) then inl "Name must contain letters"
  else inr (strip v).

Section WithRuntime.
Variable rt : Runtime.

Definition Product_fields (d : pydict) : validation Product :=
  Valid Build_Product
  <*> field "name" None
        (fun x => field_validator name_must_contain_letters
                    (str_schema (Some 1) (Some 100) x)) d
  <*> field "price" None
        (fun x => field_validator price_not_too_high (float_gt0_schema rt x)) d
  <*> field "category" None category_schema d
  <*> field "description" (Some None)
        (optional_schema (str_schema None (Some 500))) d
  <*> field "brand" (Some None)
        (optional_schema (str_schema None (Some 50))) d
  <*> field "in_stock" (Some true) bool_schema d.

Definition ProductListingRequest_fields (d : pydict)
  : validation ProductListingRequest :=
  Valid Build_ProductListingRequest
  <*> field "product" None (model_schema "Product" Product_fields) d
  <*> field "target_audience" (Some "general") (str_schema None None) d
  <*> field "tone" (Some "professional") (str_schema None None) d
  <*> field "language" (Some "English") (str_schema None None) d.

(** The call that the script makes on the loaded JSON, with the request
    unpacked as keyword arguments. *)
Definition ProductListingRequest_new (json_data : pyval)
  : outcome ProductListingRequest :=
  construct ProductListingRequest_fields json_data.

End WithRuntime.
End Step3.

(* ================================================================== *)
(** * step4_integration.py: the pipeline *)
(* ================================================================== *)

Module Step4.

(** ** 2. The models *)

Record Product := {
  name : string;
  price : pyfloat;
  category : ProductCategory;
  description : option string;
  brand : option string;
  in_stock : bool
}.

Record ProductListingRequest := {
  product : Product;
  target_audience : string;
  tone : string;
  language : string
}.

(** ** 3. The response model ([description'] is its field [description]) *)

Record ChatGPTResponse := {
  title : string;
  description' : string;
  features : list string;
  keywords : string
}.

(** [Product.price_not_too_high] *)
Definition price_not_too_high (v : pyfloat) : string + pyfloat :=
  if fgt v f_million then inl "Price too high"
  else inr v.

(** [.dict()] of the three models *)
Definition opt_str (o : option string) : pyval :=
  match o with
  | Some s => PStr s
  | None => PNone
  end.

Definition Product_dict (p : Product) : pyval :=
  PDict [("name", PStr (name p));
         ("price", PFloat (price p));
         ("category", PEnum (category p));
         ("description", opt_str (description p));
         ("brand", opt_str (brand p));
         ("in_stock", PBool (in_stock p))].

Definition ProductListingRequest_dict (r : ProductListingRequest) : pyval :=
  PDict [("product", Product_dict (product r));
         ("target_audience", PStr (target_audience r));
         ("tone", PStr (tone r));
         ("language", PStr (language r))].

Definition ChatGPTResponse_dict (r : ChatGPTResponse) : pyval :=
  PDict [("title", PStr (title r));
         ("description", PStr (description' r));
         ("features", PList (map PStr (features r)));
         ("keywords", PStr (keywords r))].

(** The arguments of [client.chat.completions.create], and what the
    function reads of its result: [response.choices[0].message.content], a
    [str] or [None], unless the call, or the reading of a reply without
    choices, raised. *)
Record chat_request := {
  model : string;
  messages : list (string * string);
  temperature : pyfloat;
  max_tokens : Z
}.

Inductive client_reply :=
| Content (content : option string)
| Fails (e : client_exn).

Definition f_0_7 : pyfloat :=
  Eval cbv in SFdiv 53 1024 (float_of_Z 7) (float_of_Z 10).

Definition rule (n : nat) : string := str_mul "=" n.

(** [x if x else default] for an [Optional[str]]: [None] and the empty
    string are false. *)
Definition or_else (x : option string) (default : string) : string :=
  match x with
  | Some (String c r) => String c r
  | _ => default
  end.

(** [" → ".join(str(loc) for loc in error['loc'])] *)
Definition field_path (error : ErrorDetails) : string :=
  join " → " (map str_of_loc (err_loc error)).

(** The line that the two validators print for one error. *)
Definition error_line (error : ErrorDetails) : string :=
  "     • " ++ field_path error ++ ": " ++ err_msg error.

(** The four results of the pipeline. *)
Definition input_validation_failed : pyval :=
  PDict [("status", PStr "input_validation_failed");
         ("error", PStr "Input data invalid")].

Definition chatgpt_failed : pyval :=
  PDict [("status", PStr "chatgpt_failed");
         ("error", PStr "ChatGPT API call failed")].

Definition output_validation_failed (chatgpt_response : string) : pyval :=
  PDict [("status", PStr "output_validation_failed");
         ("error", PStr "ChatGPT response invalid");
         ("raw_response", PStr chatgpt_response)].

Definition success (validated_input : ProductListingRequest)
  (validated_output : ChatGPTResponse) : pyval :=
  PDict [("status", PStr "success");
         ("input", ProductListingRequest_dict validated_input);
         ("output", ChatGPTResponse_dict validated_output);
         ("message",
          PStr "✅ Complete pipeline successful with validation at every step!")].

Section Pipeline.
Variable rt : Runtime.
Variable client : chat_request -> client_reply.

Definition Product_fields (d : pydict) : validation Product :=
  Valid Build_Product
  <*> field "name" None (str_schema (Some 1) (Some 100)) d
  <*> field "price" None
        (fun x => field_validator price_not_too_high (float_gt0_schema rt x)) d
  <*> field "category" None category_schema d
  <*> field "description" (Some None)
        (optional_schema (str_schema None (Some 500))) d
  <*> field "brand" (Some None)
        (optional_schema (str_schema None (Some 50))) d
  <*> field "in_stock" (Some true) bool_schema d.

Definition ProductListingRequest_fields (d : pydict)
  : validation ProductListingRequest :=
  Valid Build_ProductListingRequest
  <*> field "product" None (model_schema "Product" Product_fields) d
  <*> field "target_audience" (Some "general") (str_schema None None) d
  <*> field "tone" (Some "professional") (str_schema None None) d
  <*> field "language" (Some "English") (str_schema None None) d.

Definition ChatGPTResponse_fields (d : pydict) : validation ChatGPTResponse :=
  Valid Build_ChatGPTResponse
  <*> field "title" None (str_schema (Some 10) (Some 100)) d
  <*> field "description" None (str_schema (Some 100) (Some 1000)) d
  <*> field "features" None (list_schema (str_schema None None) 3 10) d
  <*> field "keywords" None (str_schema (Some 10) None) d.

(** ** 4. [validate_input] *)

Definition validate_input (json_data : pyval)
  : io (option ProductListingRequest) :=
  print (nl ++ "2. Validating input data..." ) ;;
  match construct ProductListingRequest_fields json_data with
  | Returns validated =>
      print "   ✅ Input validation PASSED" ;;
      print ("   Product: " ++ name (product validated)) ;;
      print ("   Price: $" ++ float_str rt (price (product validated))) ;;
      print ("   Category: " ++ enum_format rt (category (product validated))) ;;
      ret (Some validated)
  | Raises (ValidationError errors) =>
      print "   ❌ Input validation FAILED" ;;
      print ("   Found " ++ str_of_nat (List.length errors) ++ " error(s):") ;;
      for_each errors (fun error =>
        print ("     • " ++ field_path error ++ ": " ++ err_msg error)) ;;
      ret None
  | Raises e => raise e
  end.

(** ** 5. [call_chatgpt] *)

(** The local [prompt] of [call_chatgpt]. *)
Definition prompt (product_request : ProductListingRequest) : string :=
  let product := product product_request in
  join nl
    [ "Create a product listing for marketing purposes.";
      EmptyString;
      "PRODUCT DETAILS:";
      "- Name: " ++ name product;
      "- Price: $" ++ float_str rt (price product);
      "- Category: " ++ enum_format rt (category product);
      "- Brand: " ++ or_else (brand product) "Not specified";
      "- Description: " ++ or_else (description product) "No description provided";
      "- In Stock: " ++ (if in_stock product then "Yes" else "No");
      EmptyString;
      "TARGET AUDIENCE: " ++ target_audience product_request;
      "TONE: " ++ tone product_request;
      "LANGUAGE: " ++ language product_request;
      EmptyString;
      "IMPORTANT: Respond with ONLY valid JSON in this exact format:";
      "{";
      "    " ++ dq ++ "title" ++ dq ++ ": " ++ dq
        ++ "Product title here (catchy, 60 characters max)" ++ dq ++ ",";
      "    " ++ dq ++ "description" ++ dq ++ ": " ++ dq
        ++ "Detailed product description (100-300 words)" ++ dq ++ ",";
      "    " ++ dq ++ "features" ++ dq ++ ": ["
        ++ dq ++ "Feature 1" ++ dq ++ ", " ++ dq ++ "Feature 2" ++ dq ++ ", "
        ++ dq ++ "Feature 3" ++ dq ++ ", " ++ dq ++ "Feature 4" ++ dq ++ ", "
        ++ dq ++ "Feature 5" ++ dq ++ "],";
      "    " ++ dq ++ "keywords" ++ dq ++ ": " ++ dq
        ++ "comma, separated, keywords, for, seo" ++ dq;
      "}" ].

(** The request that [call_chatgpt] sends. *)
Definition request (product_request : ProductListingRequest) : chat_request :=
  {| model := "gpt-3.5-turbo";
     messages :=
       [("system", "You are a marketing expert. Always respond with valid JSON.");
        ("user", prompt product_request)];
     temperature := f_0_7;
     max_tokens := 500 |}.

(** "Clean response (remove markdown if present)" *)
Definition clean_response (content : string) : string :=
  if startswith content "```json" then slice_from_to_end content 7 3
  else if startswith content "```" then slice_from_to_end content 3 3
  else content.

Definition call_chatgpt (product_request : ProductListingRequest)
  : io (option string) :=
  print (nl ++ "3. Calling ChatGPT API...") ;;
  match client (request product_request) with
  | Content (Some content) =>
      let content := clean_response content in
      print "   ✅ ChatGPT response received" ;;
      ret (Some content)
  | Content None =>
      (* [content.startswith] raises AttributeError, which the handler takes *)
      print ("   ❌ ChatGPT API error: "
             ++ "'NoneType' object has no attribute 'startswith'") ;;
      ret None
  | Fails e =>
      if is_Exception e
      then print ("   ❌ ChatGPT API error: " ++ exn_str e) ;; ret None
      else raise (ClientExn e)
  end.

(** ** 6. [validate_chatgpt_response] *)

Definition validate_chatgpt_response (response_text : string)
  : io (option ChatGPTResponse) :=
  print (nl ++ "4. Validating ChatGPT response...") ;;
  match json_loads rt response_text with
  | JSONDecodeError =>
      print "   ❌ Response is not valid JSON" ;;
      ret None
  | LoadsRaises e =>
      (* neither [except] clause takes it *)
      raise (LoadsExn e)
  | Loaded response_data =>
      match construct ChatGPTResponse_fields response_data with
      | Returns validated_response =>
          print "   ✅ Response validation PASSED" ;;
          print ("   Title: " ++ title validated_response) ;;
          print ("   Features: "
                 ++ str_of_nat (List.length (features validated_response))
                 ++ " items") ;;
          print ("   Keywords: " ++ keywords validated_response) ;;
          ret (Some validated_response)
      | Raises (ValidationError errors) =>
          print "   ❌ Response validation FAILED" ;;
          for_each errors (fun error =>
            print ("     • " ++ field_path error ++ ": " ++ err_msg error)) ;;
          ret None
      | Raises e => raise e
      end
  end.

(** ** 7. [process_product_request] *)

Definition process_product_request (json_data : pyval) : io pyval :=
  print (nl ++ rule 60) ;;
  print "STARTING PROCESSING PIPELINE" ;;
  print (rule 60) ;;
  (* Step 1: Validate input *)
  validated_input <- validate_input json_data ;;
  match validated_input with
  | None => ret input_validation_failed
  | Some validated_input =>
      (* Step 2: Call ChatGPT *)
      chatgpt_response <- call_chatgpt validated_input ;;
      match chatgpt_response with
      | None | Some EmptyString =>
          (* [not chatgpt_response]: [None] and the empty string are false *)
          ret chatgpt_failed
      | Some chatgpt_response =>
          (* Step 3: Validate ChatGPT response *)
          validated_output <- validate_chatgpt_response chatgpt_response ;;
          match validated_output with
          | None => ret (output_validation_failed chatgpt_response)
          | Some validated_output =>
              (* Success! *)
              ret (success validated_input validated_output)
          end
      end
  end.

End Pipeline.
End Step4.

(* ================================================================== *)
(** * A reference runtime

    Executable instances of what [Runtime] stands for, as CPython 3.11 and
    Pydantic 2 behave on the strings of this embedding:
    - [json_loads]: the grammar of [json.loads], with [NaN], [Infinity] and
      [-Infinity], its [RecursionError] on a document that nests too deep and
      its [ValueError] on an integer literal of more than 4300 digits; a [\u]
      escape above U+00FF names a character outside the strings of the
      embedding and is refused;
    - [float_repr]: the shortest decimal numeral that reads back as the
      float, laid out as [repr] lays it out;
    - [parse_float]: a decimal numeral, [inf], [infinity] or [nan], with an
      optional sign and surrounding whitespace, or such a numeral with single
      underscores inside it. *)
(* ================================================================== *)

Module Reference.

Open Scope Z_scope.

(** ** Decimal numerals to floats, correctly rounded *)

(** [m * 10^e10] for a numeral of [ndigits] digits. *)
Definition float_of_decimal (neg : bool) (m e10 ndigits : Z) : pyfloat :=
  if m =? 0 then S754_zero neg
  else if 310 <? e10 then S754_infinity neg
  else if e10 + ndigits <? -330 then S754_zero neg
  else if 0 <=? e10 then
    binary_normalize 53 1024 ((if neg then -1 else 1) * (m * 10 ^ e10)) 0 neg
  else
    let '(q, e', l) := SFdiv_core_binary 53 1024 m 0 (10 ^ (- e10)) 0 in
    binary_round_aux 53 1024 neg q e' l.

Definition is_digit (c : ascii) : bool := in_range 48 57 c.

Definition digit_value (c : ascii) : Z := Z.of_nat (nat_of_ascii c) - 48.

(** The digits at the head of [s]: their value, how many, and the rest. *)
Fixpoint scan_digits (acc n : Z) (s : string) : Z * Z * string :=
  match s with
  | String c r =>
      if is_digit c then scan_digits (10 * acc + digit_value c) (n + 1) r
      else (acc, n, s)
  | EmptyString => (acc, n, s)
  end.

(** An exponent part [e], [e+] or [e-] followed by digits, if one heads [s]. *)
Definition scan_exponent (s : string) : option (Z * string) :=
  match s with
  | String c r =>
      if Ascii.eqb c "e" || Ascii.eqb c "E" then
        let '(neg, r1) :=
          match r with
          | String "-" r' => (true, r')
          | String "+" r' => (false, r')
          | _ => (false, r)
          end in
        let '(v, n, r2) := scan_digits 0 0 r1 in
        if n =? 0 then None else Some (if neg then - v else v, r2)
      else None
  | EmptyString => None
  end.

(** ** [json.loads] *)

(** How a scan ends: at a value and the text that follows it, at text that
    is no JSON ([json.JSONDecodeError]), or with another exception. *)
Inductive scanned (A : Type) :=
| At (a : A) (rest : string)
| Malformed
| Stops (e : loads_exn).
Arguments At {A} a rest.
Arguments Malformed {A}.
Arguments Stops {A} e.

(** [sys.get_int_max_str_digits()]: the digits that [int] converts. *)
Definition max_str_digits : Z := 4300.

(** The containers that may be open at once when [process_product_request]
    runs as [test_integration] calls it from the top level of the module,
    under the default recursion limit of 1000. *)
Definition recursion_room : nat := 992.

Definition is_json_ws (c : ascii) : bool :=
  let n := nat_of_ascii c in
  (n =? 32)%nat || (n =? 9)%nat || (n =? 10)%nat || (n =? 13)%nat.

Fixpoint skip_ws (s : string) : string :=
  match s with
  | String c r => if is_json_ws c then skip_ws r else s
  | EmptyString => s
  end.

(** [s] without its prefix [p], when it has it. *)
Fixpoint after_prefix (p s : string) : option string :=
  match p, s with
  | EmptyString, _ => Some s
  | String a p', String b s' => if Ascii.eqb a b then after_prefix p' s' else None
  | _, _ => None
  end.

Definition hex_value (c : ascii) : option Z :=
  if is_digit c then Some (digit_value c)
  else if in_range 97 102 c then Some (Z.of_nat (nat_of_ascii c) - 87)
  else if in_range 65 70 c then Some (Z.of_nat (nat_of_ascii c) - 55)
  else None.

Definition hex4 (a b c d : ascii) : option Z :=
  match hex_value a, hex_value b, hex_value c, hex_value d with
  | Some x, Some y, Some z, Some w => Some (((x * 16 + y) * 16 + z) * 16 + w)
  | _, _, _, _ => None
  end.

Definition chr (n : nat) : ascii := ascii_of_nat n.

(** The body of a string literal, after its opening quote. *)
Fixpoint scan_string (s : string) : option (string * string) :=
  match s with
  | EmptyString => None
  | String c r =>
      if (nat_of_ascii c =? 34)%nat then Some (EmptyString, r)
      else if (nat_of_ascii c <? 32)%nat then None
      else if Ascii.eqb c "\" then
        match r with
        | String e r' =>
            let simple (x : ascii) :=
              match scan_string r' with
              | Some (t, rest) => Some (String x t, rest)
              | None => None
              end in
            if (nat_of_ascii e =? 34)%nat then simple (chr 34)
            else if Ascii.eqb e "\" then simple "\"%char
            else if Ascii.eqb e "/" then simple "/"%char
            else if Ascii.eqb e "b" then simple (chr 8)
            else if Ascii.eqb e "f" then simple (chr 12)
            else if Ascii.eqb e "n" then simple (chr 10)
            else if Ascii.eqb e "r" then simple (chr 13)
            else if Ascii.eqb e "t" then simple (chr 9)
            else if Ascii.eqb e "u" then
              match r' with
              | String h1 (String h2 (String h3 (String h4 r''))) =>
                  match hex4 h1 h2 h3 h4 with
                  | Some n =>
                      if n <? 256 then
                        match scan_string r'' with
                        | Some (t, rest) => Some (String (chr (Z.to_nat n)) t, rest)
                        | None => None
                        end
                      else None
                  | None => None
                  end
              | _ => None
              end
            else None
        | EmptyString => None
        end
      else
        match scan_string r with
        | Some (t, rest) => Some (String c t, rest)
        | None => None
        end
  end.

(** A number: an optional minus sign, then 0 or a numeral that does not
    start with 0, then optionally a point and digits, then optionally an
    exponent; an [int] without fraction and exponent, a [float] with either.
    [int] raises [ValueError] on more than [max_str_digits] digits. *)
Definition scan_number (s : string) : scanned pyval :=
  let '(neg, s1) :=
    match s with
    | String "-" r => (true, r)
    | _ => (false, s)
    end in
  match s1 with
  | String c r =>
      if is_digit c then
        let '(int_v, int_n, s2) :=
          if Ascii.eqb c "0" then (0, 1, r) else scan_digits 0 0 s1 in
        let '(m, n, frac_n, s3, has_frac) :=
          match s2 with
          | String "." r2 =>
              let '(v, k, r3) := scan_digits int_v int_n r2 in
              if k =? int_n then (int_v, int_n, 0, s2, false)
              else (v, k, k - int_n, r3, true)
          | _ => (int_v, int_n, 0, s2, false)
          end in
        match scan_exponent s3 with
        | Some (e, s4) => At (PFloat (float_of_decimal neg m (e - frac_n) n)) s4
        | None =>
            if has_frac then At (PFloat (float_of_decimal neg m (- frac_n) n)) s3
            else if max_str_digits <? n then Stops ValueError
            else At (PInt (if neg then - m else m)) s3
        end
      else Malformed
  | EmptyString => Malformed
  end.

(** A value at the head of [s], with room for [room] more open containers:
    entering an object or an array takes one, and raises [RecursionError]
    when none is left. *)
Fixpoint parse_value (fuel room : nat) (s : string) : scanned pyval :=
  match fuel with
  | O => Malformed
  | S fuel' =>
      match s with
      | EmptyString => Malformed
      | String c r =>
          if (nat_of_ascii c =? 34)%nat then
            match scan_string r with
            | Some (t, rest) => At (PStr t) rest
            | None => Malformed
            end
          else if Ascii.eqb c "{" then
            match room with
            | O => Stops RecursionError
            | S room' =>
                match skip_ws r with
                | String "}" rest => At (PDict []) rest
                | r1 =>
                    match parse_members fuel' room' [] r1 with
                    | At d rest => At (PDict d) rest
                    | Malformed => Malformed
                    | Stops e => Stops e
                    end
                end
            end
          else if Ascii.eqb c "[" then
            match room with
            | O => Stops RecursionError
            | S room' =>
                match skip_ws r with
                | String "]" rest => At (PList []) rest
                | r1 =>
                    match parse_elements fuel' room' r1 with
                    | At l rest => At (PList l) rest
                    | Malformed => Malformed
                    | Stops e => Stops e
                    end
                end
            end
          else
            match after_prefix "null" s, after_prefix "true" s,
                  after_prefix "false" s, after_prefix "NaN" s,
                  after_prefix "Infinity" s, after_prefix "-Infinity" s with
            | Some rest, _, _, _, _, _ => At PNone rest
            | _, Some rest, _, _, _, _ => At (PBool true) rest
            | _, _, Some rest, _, _, _ => At (PBool false) rest
            | _, _, _, Some rest, _, _ => At (PFloat S754_nan) rest
            | _, _, _, _, Some rest, _ => At (PFloat (S754_infinity false)) rest
            | _, _, _, _, _, Some rest => At (PFloat (S754_infinity true)) rest
            | _, _, _, _, _, _ => scan_number s
            end
      end
  end

with parse_elements (fuel room : nat) (s : string) : scanned (list pyval) :=
  match fuel with
  | O => Malformed
  | S fuel' =>
      match parse_value fuel' room s with
      | At v rest =>
          match skip_ws rest with
          | String "]" rest' => At [v] rest'
          | String "," rest' =>
              match parse_elements fuel' room (skip_ws rest') with
              | At l rest'' => At (v :: l) rest''
              | Malformed => Malformed
              | Stops e => Stops e
              end
          | _ => Malformed
          end
      | Malformed => Malformed
      | Stops e => Stops e
      end
  end

with parse_members (fuel room : nat) (acc : pydict) (s : string)
  : scanned pydict :=
  match fuel with
  | O => Malformed
  | S fuel' =>
      match s with
      | String c r =>
          if (nat_of_ascii c =? 34)%nat then
            match scan_string r with
            | Some (k, r1) =>
                match skip_ws r1 with
                | String ":" r2 =>
                    match parse_value fuel' room (skip_ws r2) with
                    | At v r3 =>
                        let acc' := dict_set k v acc in
                        match skip_ws r3 with
                        | String "}" rest => At acc' rest
                        | String "," rest => parse_members fuel' room acc' (skip_ws rest)
                        | _ => Malformed
                        end
                    | Malformed => Malformed
                    | Stops e => Stops e
                    end
                | _ => Malformed
                end
            | None => Malformed
            end
          else Malformed
      | EmptyString => Malformed
      end
  end.

(** [json.loads(s)] with room for [room] open containers. *)
Definition json_loads_within (room : nat) (s : string) : loads_result :=
  match parse_value (2 * String.length s + 2) room (skip_ws s) with
  | At v rest =>
      match skip_ws rest with
      | EmptyString => Loaded v
      | _ => JSONDecodeError
      end
  | Malformed => JSONDecodeError
  | Stops e => LoadsRaises e
  end.

Definition json_loads (s : string) : loads_result :=
  json_loads_within recursion_room s.

(** ** [repr] of a float *)

(** [d * 10^k] compared with [x * 2^e], for non-negative [d] and [x]. *)
Definition cmp_dec_bin (d k x e : Z) : comparison :=
  Z.compare (d * 10 ^ Z.max k 0 * 2 ^ Z.max (- e) 0)
            (x * 2 ^ Z.max e 0 * 10 ^ Z.max (- k) 0).

(** The integer part of [m * 2^e / 10^k]. *)
Definition floor_scaled (m e k : Z) : Z :=
  (m * 2 ^ Z.max e 0 * 10 ^ Z.max (- k) 0)
  / (10 ^ Z.max k 0 * 2 ^ Z.max (- e) 0).

(** The [L] with [10^L <= m * 2^e < 10^(L+1)]. *)
Definition floor_log10 (m e : Z) : Z :=
  let bits := Z.log2 m + 1 + e in
  let l0 := (bits - 1) * 30103 / 100000 in
  match cmp_dec_bin 1 (l0 + 1) m e with
  | Gt =>
      match cmp_dec_bin 1 l0 m e with
      | Gt => l0 - 1
      | _ => l0
      end
  | _ => l0 + 1
  end.

(** Whether [d * 10^k] rounds to the float [m * 2^e]: it lies between the
    midpoints to the two neighbouring floats, the midpoints included when
    [m] is even. *)
Definition reads_back (m e d k : Z) : bool :=
  let below := if (m =? 2 ^ 52) && (-1074 <? e) then 1 else 2 in
  let ok_low :=
    match cmp_dec_bin d k (4 * m - below) (e - 2) with
    | Gt => true
    | Eq => Z.even m
    | Lt => false
    end in
  let ok_high :=
    match cmp_dec_bin d k (4 * m + 2) (e - 2) with
    | Lt => true
    | Eq => Z.even m
    | Gt => false
    end in
  ok_low && ok_high.

(** The numeral of [n] digits nearest to [m * 2^e] that reads back as it. *)
Definition candidate (m e l n : Z) : option (Z * Z) :=
  let k := l - (n - 1) in
  let lo := floor_scaled m e k in
  let hi := lo + 1 in
  match reads_back m e lo k, reads_back m e hi k with
  | true, true =>
      match cmp_dec_bin (lo + hi) k (2 * m) e with
      | Gt => Some (lo, k)
      | Lt => Some (hi, k)
      | Eq => Some (if Z.even lo then lo else hi, k)
      end
  | true, false => Some (lo, k)
  | false, true => Some (hi, k)
  | false, false => None
  end.

Fixpoint shortest (fuel : nat) (m e l n : Z) : Z * Z :=
  match fuel with
  | O => (floor_scaled m e (l - 16), l - 16)
  | S fuel' =>
      match candidate m e l n with
      | Some r => r
      | None => shortest fuel' m e l (n + 1)
      end
  end.

Definition str_of_Z (z : Z) : string :=
  NilEmpty.string_of_uint (N.to_uint (Z.to_N z)).

Fixpoint strip_zeros (s : string) : string :=
  match s with
  | EmptyString => EmptyString
  | String c r =>
      match strip_zeros r with
      | EmptyString => if Ascii.eqb c "0" then EmptyString else String c EmptyString
      | r' => String c r'
      end
  end.

Definition zeros (n : Z) : string := str_mul "0" (Z.to_nat n).

Definition float_repr (f : pyfloat) : string :=
  match f with
  | S754_nan => "nan"
  | S754_infinity s => if s then "-inf" else "inf"
  | S754_zero s => if s then "-0.0" else "0.0"
  | S754_finite s m e =>
      let '(d, k) := shortest 17 (Zpos m) e (floor_log10 (Zpos m) e) 1 in
      let all := str_of_Z d in
      let digits := strip_zeros all in
      let n := Z.of_nat (String.length digits) in
      let decpt := Z.of_nat (String.length all) + k in
      let body :=
        if (decpt <=? -4) || (16 <? decpt) then
          let x := decpt - 1 in
          substring 0 1 digits
          ++ (if n =? 1 then EmptyString
              else "." ++ substring 1 (String.length digits - 1) digits)
          ++ "e" ++ (if x <? 0 then "-" else "+")
          ++ (if Z.abs x <? 10 then "0" else EmptyString)
          ++ str_of_Z (Z.abs x)
        else if decpt <=? 0 then "0." ++ zeros (- decpt) ++ digits
        else if n <=? decpt then digits ++ zeros (decpt - n) ++ ".0"
        else substring 0 (Z.to_nat decpt) digits ++ "."
             ++ substring (Z.to_nat decpt) (String.length digits - Z.to_nat decpt) digits
      in
      (if s then "-" else EmptyString) ++ body
  end.

(** ** Numeric strings in lax mode *)

Definition is_rust_ws (c : ascii) : bool :=
  let n := nat_of_ascii c in
  in_range 9 13 c || (n =? 32)%nat || (n =? 133)%nat || (n =? 160)%nat.

Fixpoint ltrim (s : string) : string :=
  match s with
  | String c r => if is_rust_ws c then ltrim r else s
  | EmptyString => s
  end.

Fixpoint rtrim (s : string) : string :=
  match s with
  | EmptyString => EmptyString
  | String c r =>
      match rtrim r with
      | EmptyString => if is_rust_ws c then EmptyString else String c EmptyString
      | r' => String c r'
      end
  end.

(** Rust's [str::parse::<f64>]. *)
Definition parse_f64 (t : string) : option pyfloat :=
  let '(neg, t1) :=
    match t with
    | String "-" r => (true, r)
    | String "+" r => (false, r)
    | _ => (false, t)
    end in
  let word := lower t1 in
  if String.eqb word "inf" || String.eqb word "infinity" then Some (S754_infinity neg)
  else if String.eqb word "nan" then Some S754_nan
  else
    let '(int_v, int_n, t2) := scan_digits 0 0 t1 in
    let '(m, n, t3) :=
      match t2 with
      | String "." r => scan_digits int_v int_n r
      | _ => (int_v, int_n, t2)
      end in
    if n =? 0 then None
    else
      match t3 with
      | EmptyString => Some (float_of_decimal neg m (- (n - int_n)) n)
      | _ =>
          match scan_exponent t3 with
          | Some (x, EmptyString) => Some (float_of_decimal neg m (x - (n - int_n)) n)
          | _ => None
          end
      end.

Definition is_underscore (c : ascii) : bool := Ascii.eqb c "_".

Fixpoint ends_with_underscore (s : string) : bool :=
  match s with
  | EmptyString => false
  | String c EmptyString => is_underscore c
  | String _ r => ends_with_underscore r
  end.

Fixpoint has_double_underscore (s : string) : bool :=
  match s with
  | String a ((String b _) as r) =>
      (is_underscore a && is_underscore b) || has_double_underscore r
  | _ => false
  end.

Fixpoint remove_underscores (s : string) : string :=
  match s with
  | EmptyString => EmptyString
  | String c r =>
      if is_underscore c then remove_underscores r
      else String c (remove_underscores r)
  end.

(** [s] without its underscores, when it has some, none of them first, last
    or next to another. *)
Definition strip_underscores (s : string) : option string :=
  if startswith s "_" || ends_with_underscore s || negb (any is_underscore s)
     || has_double_underscore s
  then None
  else Some (remove_underscores s).

(** The trimmed string is parsed; failing that, the string without its
    underscores. *)
Definition parse_float (s : string) : option pyfloat :=
  match parse_f64 (rtrim (ltrim s)) with
  | Some f => Some f
  | None =>
      match strip_underscores s with
      | Some stripped => parse_f64 stripped
      | None => None
      end
  end.

(** ** The runtime *)

Definition category_name (c : ProductCategory) : string :=
  match c with
  | ELECTRONICS => "ELECTRONICS"
  | CLOTHING => "CLOTHING"
  | HOME_GOODS => "HOME_GOODS"
  | BOOKS => "BOOKS"
  | OTHER => "OTHER"
  end.

Definition runtime : Runtime :=
  {| Py.json_loads := json_loads;
     float_str := float_repr;
     enum_format := fun c => "ProductCategory." ++ category_name c;
     str_as_float := parse_float |}.

End Reference.

(* ================================================================== *)
(** * Sample data *)
(* ================================================================== *)

Module Samples.
Import Step4.

(** ['[' * 2000]: more open arrays than the recursion limit allows. *)
Definition deep_reply : string := str_mul "[" 2000.

(** ['1' * 4301]: an integer literal of one digit too many for [int]. *)
Definition long_integer_reply : string := str_mul "1" 4301.

Definition f_89_99 : pyfloat :=
  Eval cbv in Reference.float_of_decimal false 8999 (-2) 4.

(** [test_data] of [test_integration] *)
Definition test_data : pyval :=
  PDict [("product",
          PDict [("name", PStr "Premium Coffee Maker");
                 ("price", PFloat f_89_99);
                 ("category", PStr "home_goods");
                 ("description", PStr "Programmable coffee maker with thermal carafe");
                 ("brand", PStr "BrewMaster");
                 ("in_stock", PBool true)]);
         ("target_audience", PStr "home baristas");
         ("tone", PStr "warm and inviting");
         ("language", PStr "English")].

(** The request that [test_data] validates to. *)
Definition test_request : ProductListingRequest :=
  {| product :=
       {| name := "Premium Coffee Maker";
          price := f_89_99;
          category := HOME_GOODS;
          description := Some "Programmable coffee maker with thermal carafe";
          brand := Some "BrewMaster";
          in_stock := true |};
     target_audience := "home baristas";
     tone := "warm and inviting";
     language := "English" |}.

(** A product with the given name and price and nothing else optional. *)
Definition plain_product (name price : pyval) : pydict :=
  [("name", name); ("price", price); ("category", PStr "other")].

Definition plain_request (name price : pyval) : pyval :=
  PDict [("product", PDict (plain_product name price))].

Definition quoted (s : string) : string := dq ++ s ++ dq.

(** A reply of the shape that the prompt asks for. *)
Definition good_reply : string :=
  "{" ++ quoted "title" ++ ": " ++ quoted "Premium Coffee Maker for Home Baristas" ++ ", "
  ++ quoted "description" ++ ": "
  ++ quoted ("Wake up to cafe-quality coffee with this programmable coffee maker. "
             ++ "Its thermal carafe keeps every cup hot for hours.") ++ ", "
  ++ quoted "features" ++ ": [" ++ quoted "Programmable timer" ++ ", "
  ++ quoted "Thermal carafe" ++ ", " ++ quoted "Easy to clean" ++ "], "
  ++ quoted "keywords" ++ ": " ++ quoted "coffee maker, thermal carafe, programmable"
  ++ "}".

(** The response that [good_reply] validates to. *)
Definition good_response : ChatGPTResponse :=
  {| title := "Premium Coffee Maker for Home Baristas";
     description' :=
       "Wake up to cafe-quality coffee with this programmable coffee maker. "
       ++ "Its thermal carafe keeps every cup hot for hours.";
     features := ["Programmable timer"; "Thermal carafe"; "Easy to clean"];
     keywords := "coffee maker, thermal carafe, programmable" |}.

(** A reply that opens a JSON code fence and never closes it. *)
Definition unclosed_fence_reply : string :=
  "```json" ++ nl ++ "{" ++ quoted "a" ++ ": 1}".

(** A validated request with neither brand nor description, out of stock. *)
Definition bare_request : ProductListingRequest :=
  {| product :=
       {| name := "Mug";
          price := f_one;
          category := OTHER;
          description := None;
          brand := None;
          in_stock := false |};
     target_audience := "general";
     tone := "professional";
     language := "English" |}.

(** The request [d], whose product is [prod], with the price replaced. *)
Definition with_price (price : pyval) (d prod : pydict) : pydict :=
  dict_set "product" (PDict (dict_set "price" price prod)) d.

(** [good_reply] after an opening JSON fence that is never closed. *)
Definition good_reply_unclosed : string := "```json" ++ nl ++ good_reply.

(** Two invalid requests: a negative price, and no product at all. *)
Definition negative_price : pyval :=
  plain_request (PStr "Premium Coffee Maker") (PInt (-5)).

Definition no_product : pyval := PDict [("tone", PInt 3)].

(** A name without a letter, and a name with spaces around it. *)
Definition digits_name : pyval := plain_request (PStr "12345") (PInt 10).

Definition padded_name : pyval := plain_request (PStr "  Mug ") (PInt 10).

(** A model client that answers every request the same way. *)
Definition stub (reply : client_reply) : chat_request -> client_reply :=
  fun _ => reply.

Definition replies (text : string) : chat_request -> client_reply :=
  stub (Content (Some text)).

Definition transport_error : client_exn :=
  {| is_Exception := true; exn_str := "Connection error." |}.

Definition interrupt : client_exn :=
  {| is_Exception := false; exn_str := EmptyString |}.

End Samples.

(* ================================================================== *)
(** * Properties *)
(* ================================================================== *)

Import Step4 Samples.

(** ** Tactics *)

(** Decides the comparisons of characters that a hypothesis mentions. *)
Ltac case_chars :=
  repeat match goal with
         | H : context [Ascii.eqb ?a ?b] |- _ =>
             destruct (Ascii.eqb a b); cbn [andb] in *
         end;
  try discriminate; try reflexivity.

(** ** The monad *)

Lemma result_bind {A B} (m : io A) (k : A -> io B) :
  result (bind m k) =
  match result m with
  | Returns a => result (k a)
  | Raises e => Raises e
  end.
Proof.
  destruct m as [out [a|e]]; simpl; auto.
  destruct (k a); reflexivity.
Qed.

Lemma stdout_bind {A B} (m : io A) (k : A -> io B) :
  stdout (bind m k) =
  match result m with
  | Returns a => (stdout m ++ stdout (k a))%list
  | Raises e => stdout m
  end.
Proof.
  destruct m as [out [a|e]]; simpl; auto.
  destruct (k a); reflexivity.
Qed.

Lemma bind_print {B} (s : string) (k : unit -> io B) :
  bind (print s) k = (s :: stdout (k tt), result (k tt)).
Proof. unfold bind, print. destruct (k tt); reflexivity. Qed.

Lemma for_each_print {A} (line : A -> string) (l : list A) :
  for_each l (fun x => print (line x)) = (map line l, Returns tt).
Proof.
  induction l as [|x l IH]; [reflexivity|].
  cbn [for_each]. rewrite bind_print, IH. reflexivity.
Qed.

(** ** Scenarios A to D of the specification, and the test of the source *)

Example scenario_A :
  result (process_product_request Reference.runtime (replies good_reply) test_data)
  = Returns (PDict
      [("status", PStr "success");
       ("input", ProductListingRequest_dict test_request);
       ("output", ChatGPTResponse_dict good_response);
       ("message",
        PStr "✅ Complete pipeline successful with validation at every step!")]).
Proof. vm_compute. reflexivity. Qed.

Example scenario_B :
  process_product_request Reference.runtime (replies good_reply)
    (plain_request (PStr "Premium Coffee Maker") (PInt (-5)))
  = ([nl ++ rule 60; "STARTING PROCESSING PIPELINE"; rule 60;
      nl ++ "2. Validating input data...";
      "   ❌ Input validation FAILED";
      "   Found 1 error(s):";
      "     • product → price: Input should be greater than 0"],
     Returns (PDict [("status", PStr "input_validation_failed");
                     ("error", PStr "Input data invalid")])).
Proof. vm_compute. reflexivity. Qed.

Example scenario_C :
  result (process_product_request Reference.runtime (replies "not json at all") test_data)
  = Returns (PDict [("status", PStr "output_validation_failed");
                    ("error", PStr "ChatGPT response invalid");
                    ("raw_response", PStr "not json at all")]).
Proof. vm_compute. reflexivity. Qed.

Example scenario_D :
  result (process_product_request Reference.runtime (stub (Fails transport_error)) test_data)
  = Returns (PDict [("status", PStr "chatgpt_failed");
                    ("error", PStr "ChatGPT API call failed")]).
Proof. vm_compute. reflexivity. Qed.

(** [except Exception] lets through what does not derive from [Exception]. *)
Example interrupt_escapes :
  result (process_product_request Reference.runtime (stub (Fails interrupt)) test_data)
  = Raises (ClientExn interrupt).
Proof. vm_compute. reflexivity. Qed.

Example prompt_of_test_request :
  prompt Reference.runtime test_request
  = join nl
      [ "Create a product listing for marketing purposes.";
        EmptyString;
        "PRODUCT DETAILS:";
        "- Name: Premium Coffee Maker";
        "- Price: $89.99";
        "- Category: ProductCategory.HOME_GOODS";
        "- Brand: BrewMaster";
        "- Description: Programmable coffee maker with thermal carafe";
        "- In Stock: Yes";
        EmptyString;
        "TARGET AUDIENCE: home baristas";
        "TONE: warm and inviting";
        "LANGUAGE: English";
        EmptyString;
        "IMPORTANT: Respond with ONLY valid JSON in this exact format:";
        "{";
        "    " ++ quoted "title" ++ ": "
          ++ quoted "Product title here (catchy, 60 characters max)" ++ ",";
        "    " ++ quoted "description" ++ ": "
          ++ quoted "Detailed product description (100-300 words)" ++ ",";
        "    " ++ quoted "features" ++ ": [" ++ quoted "Feature 1" ++ ", "
          ++ quoted "Feature 2" ++ ", " ++ quoted "Feature 3" ++ ", "
          ++ quoted "Feature 4" ++ ", " ++ quoted "Feature 5" ++ "],";
        "    " ++ quoted "keywords" ++ ": "
          ++ quoted "comma, separated, keywords, for, seo";
        "}" ].
Proof. vm_compute. reflexivity. Qed.

(** ** The three stages, case by case *)

Section Stages.
Variable rt : Runtime.
Variable client : chat_request -> client_reply.

Lemma validate_input_cases (json_data : pyval) :
  validate_input rt json_data =
  match construct (ProductListingRequest_fields rt) json_data with
  | Returns validated =>
      ([nl ++ "2. Validating input data...";
        "   ✅ Input validation PASSED";
        "   Product: " ++ name (product validated);
        "   Price: $" ++ float_str rt (price (product validated));
        "   Category: " ++ enum_format rt (category (product validated))],
       Returns (Some validated))
  | Raises (ValidationError errors) =>
      ((nl ++ "2. Validating input data...")
       :: "   ❌ Input validation FAILED"
       :: ("   Found " ++ str_of_nat (List.length errors) ++ " error(s):")
       :: map error_line errors,
       Returns None)
  | Raises e => ([nl ++ "2. Validating input data..."], Raises e)
  end.
Proof.
  unfold validate_input.
  destruct (construct (ProductListingRequest_fields rt) json_data) as [v|[|errors|e|e]];
    try reflexivity.
  rewrite !bind_print.
  change (for_each errors _) with (for_each errors (fun e => print (error_line e))).
  rewrite for_each_print. cbn. rewrite app_nil_r. reflexivity.
Qed.

Lemma call_chatgpt_cases (product_request : ProductListingRequest) :
  call_chatgpt rt client product_request =
  match client (request rt product_request) with
  | Content (Some content) =>
      ([nl ++ "3. Calling ChatGPT API..."; "   ✅ ChatGPT response received"],
       Returns (Some (clean_response content)))
  | Content None =>
      ([nl ++ "3. Calling ChatGPT API...";
        "   ❌ ChatGPT API error: 'NoneType' object has no attribute 'startswith'"],
       Returns None)
  | Fails e =>
      if is_Exception e
      then ([nl ++ "3. Calling ChatGPT API...";
             "   ❌ ChatGPT API error: " ++ exn_str e], Returns None)
      else ([nl ++ "3. Calling ChatGPT API..."], Raises (ClientExn e))
  end.
Proof.
  unfold call_chatgpt.
  destruct (client (request rt product_request)) as [[content|]|e]; try reflexivity.
  destruct (is_Exception e); reflexivity.
Qed.

Lemma validate_chatgpt_response_cases (response_text : string) :
  validate_chatgpt_response rt response_text =
  match json_loads rt response_text with
  | JSONDecodeError =>
      ([nl ++ "4. Validating ChatGPT response...";
        "   ❌ Response is not valid JSON"], Returns None)
  | LoadsRaises e =>
      ([nl ++ "4. Validating ChatGPT response..."], Raises (LoadsExn e))
  | Loaded response_data =>
      match construct ChatGPTResponse_fields response_data with
      | Returns validated_response =>
          ([nl ++ "4. Validating ChatGPT response...";
            "   ✅ Response validation PASSED";
            "   Title: " ++ title validated_response;
            "   Features: "
              ++ str_of_nat (List.length (features validated_response)) ++ " items";
            "   Keywords: " ++ keywords validated_response],
           Returns (Some validated_response))
      | Raises (ValidationError errors) =>
          ((nl ++ "4. Validating ChatGPT response...")
           :: "   ❌ Response validation FAILED"
           :: map error_line errors,
           Returns None)
      | Raises e => ([nl ++ "4. Validating ChatGPT response..."], Raises e)
      end
  end.
Proof.
  unfold validate_chatgpt_response.
  destruct (json_loads rt response_text) as [data| |e]; try reflexivity.
  destruct (construct ChatGPTResponse_fields data) as [v|[|errors|e|e]];
    try reflexivity.
  rewrite !bind_print.
  change (for_each errors _) with (for_each errors (fun e => print (error_line e))).
  rewrite for_each_print. cbn. rewrite app_nil_r. reflexivity.
Qed.

(** What the orchestrator returns or lets escape, stage by stage. *)
Lemma process_product_request_result (json_data : pyval) :
  result (process_product_request rt client json_data) =
  match construct (ProductListingRequest_fields rt) json_data with
  | Raises (ValidationError _) => Returns input_validation_failed
  | Raises e => Raises e
  | Returns validated_input =>
      match client (request rt validated_input) with
      | Fails e =>
          if is_Exception e then Returns chatgpt_failed else Raises (ClientExn e)
      | Content None => Returns chatgpt_failed
      | Content (Some content) =>
          match clean_response content with
          | EmptyString => Returns chatgpt_failed
          | chatgpt_response =>
              match json_loads rt chatgpt_response with
              | JSONDecodeError =>
                  Returns (output_validation_failed chatgpt_response)
              | LoadsRaises e => Raises (LoadsExn e)
              | Loaded response_data =>
                  match construct ChatGPTResponse_fields response_data with
                  | Returns validated_output =>
                      Returns (success validated_input validated_output)
                  | Raises (ValidationError _) =>
                      Returns (output_validation_failed chatgpt_response)
                  | Raises e => Raises e
                  end
              end
          end
      end
  end.
Proof.
  unfold process_product_request.
  rewrite !bind_print. cbn [result snd].
  rewrite result_bind, validate_input_cases.
  destruct (construct (ProductListingRequest_fields rt) json_data) as [v|[|errors|e|e]];
    try reflexivity.
  cbn [result snd].
  rewrite result_bind, call_chatgpt_cases.
  destruct (client (request rt v)) as [[content|]|e]; try reflexivity.
  - cbn [result snd].
    destruct (clean_response content) as [|c r] eqn:Hclean; [reflexivity|].
    rewrite result_bind, validate_chatgpt_response_cases.
    destruct (json_loads rt (String c r)) as [data| |e]; try reflexivity.
    destruct (construct ChatGPTResponse_fields data) as [out|[|errors|e|e]];
      reflexivity.
  - destruct (is_Exception e); reflexivity.
Qed.

End Stages.

(** ** Floats: the order *)

Lemma compare_cont_swap (p q : positive) :
  PosDef.Pos.compare_cont Eq q p = CompOpp (PosDef.Pos.compare_cont Eq p q).
Proof.
  change (Pos.compare_cont Eq q p = CompOpp (Pos.compare_cont Eq p q)).
  now rewrite Pos.compare_cont_antisym.
Qed.

Lemma SFcompare_antisym (x y : pyfloat) :
  SFcompare y x = option_map CompOpp (SFcompare x y).
Proof.
  destruct x as [sx|sx| |sx mx ex], y as [sy|sy| |sy my ey]; cbn;
    try reflexivity;
    try (destruct sx; reflexivity); try (destruct sy; reflexivity);
    try (destruct sx, sy; reflexivity).
  rewrite (Z.compare_antisym ex ey), (compare_cont_swap mx my).
  destruct sx, sy, (ex ?= ey)%Z, (PosDef.Pos.compare_cont Eq mx my); reflexivity.
Qed.

(** [x <= y] excludes [x > y]. *)
Lemma fle_not_fgt (x y : pyfloat) : fle x y = true -> fgt x y = false.
Proof.
  unfold fle, fgt, SFleb, SFltb. rewrite (SFcompare_antisym x y).
  destruct (SFcompare x y) as [[| |]|]; cbn; congruence.
Qed.

(** [x > y] excludes [x <= y]. *)
Lemma fgt_not_fle (x y : pyfloat) : fgt x y = true -> fle x y = false.
Proof.
  unfold fle, fgt, SFleb, SFltb. rewrite (SFcompare_antisym x y).
  destruct (SFcompare x y) as [[| |]|]; cbn; congruence.
Qed.

(** ** Dictionaries *)

Lemma dict_get_set_same (k : string) (v : pyval) (d : pydict) :
  dict_get k (dict_set k v d) = Some v.
Proof.
  induction d as [|[k' v'] d IH]; cbn.
  - now rewrite String.eqb_refl.
  - destruct (String.eqb k' k) eqn:E; cbn; rewrite E; auto.
Qed.

Lemma dict_get_set_other (k k' : string) (v : pyval) (d : pydict) :
  k <> k' -> dict_get k' (dict_set k v d) = dict_get k' d.
Proof.
  intros Hne. induction d as [|[k0 v0] d IH]; cbn.
  - destruct (String.eqb k k') eqn:E; [|reflexivity].
    apply String.eqb_eq in E. contradiction.
  - destruct (String.eqb k0 k) eqn:E; cbn.
    + apply String.eqb_eq in E. subst k0.
      destruct (String.eqb k k') eqn:E'; [|reflexivity].
      apply String.eqb_eq in E'. contradiction.
    + now rewrite IH.
Qed.

(** ** Validation *)

Lemma is_valid_vap {A B} (f : validation (A -> B)) (v : validation A) :
  is_valid (f <*> v) = is_valid f && is_valid v.
Proof. destruct f, v; reflexivity. Qed.

Lemma is_valid_under {A} (l : loc_item) (v : validation A) :
  is_valid (under l v) = is_valid v.
Proof. destruct v; reflexivity. Qed.

Lemma is_valid_true {A} (v : validation A) :
  is_valid v = true -> exists a, v = Valid a.
Proof. destruct v; [eauto | discriminate]. Qed.

Lemma vap_valid {A B} (f : validation (A -> B)) (v : validation A) (b : B) :
  f <*> v = Valid b -> exists g a, f = Valid g /\ v = Valid a /\ b = g a.
Proof.
  destruct f as [g|], v as [a|]; cbn; try discriminate.
  intros [= <-]. eauto.
Qed.

Lemma under_valid {A} (l : loc_item) (v : validation A) (a : A) :
  under l v = Valid a -> v = Valid a.
Proof. destruct v; cbn; congruence. Qed.

Lemma field_present {A} (k : string) (default : option A)
  (schema : pyval -> validation A) (d : pydict) (x : pyval) :
  dict_get k d = Some x -> field k default schema d = under (LocKey k) (schema x).
Proof. unfold field. now intros ->. Qed.

Lemma field_set_same {A} (k : string) (default : option A)
  (schema : pyval -> validation A) (d : pydict) (x : pyval) :
  field k default schema (dict_set k x d) = under (LocKey k) (schema x).
Proof. apply field_present, dict_get_set_same. Qed.

Lemma field_set_other {A} (k k' : string) (default : option A)
  (schema : pyval -> validation A) (d : pydict) (x : pyval) :
  k <> k' -> field k' default schema (dict_set k x d) = field k' default schema d.
Proof. intros Hne. unfold field. now rewrite dict_get_set_other. Qed.

(** Looks up the fields of a model in a dictionary that is written out. *)
Ltac lookup_fields :=
  repeat match goal with
         | |- context [field ?k ?dflt ?sch ?d] =>
             let r := eval lazy beta iota delta
                        [dict_get String.eqb Ascii.eqb Bool.eqb andb] in (dict_get k d) in
             match r with
             | Some ?x => rewrite (field_present k dflt sch d x eq_refl)
             end
         end.

(** [validate_input] on a [dict]: the validated request, or [None]. *)
Lemma validate_input_result (rt : Runtime) (d : pydict) :
  result (validate_input rt (PDict d)) =
  match ProductListingRequest_fields rt d with
  | Valid validated => Returns (Some validated)
  | Invalid _ => Returns None
  end.
Proof.
  rewrite validate_input_cases. cbn [construct].
  destruct (ProductListingRequest_fields rt d); reflexivity.
Qed.

(** ** The price *)

(** The [price] field once the input reads as the float [f]: [gt=0] first,
    [price_not_too_high] after it. *)
Lemma price_field_cases (rt : Runtime) (x : pyval) (f : pyfloat) :
  to_float rt x = Valid f ->
  field_validator price_not_too_high (float_gt0_schema rt x) =
  if fgt f f_zero then
    if fgt f f_million then Invalid [error "value_error" "Value error, Price too high"]
    else Valid f
  else Invalid [error "greater_than" "Input should be greater than 0"].
Proof.
  intros Hf. unfold float_gt0_schema. rewrite Hf.
  destruct (fgt f f_zero); [|reflexivity].
  cbn. unfold price_not_too_high. destruct (fgt f f_million); reflexivity.
Qed.

(** C5. Input validation fails for every price that is at most 0 or above
    1,000,000, whatever the other fields; it succeeds, and stores the price,
    for every price greater than 0 and at most 1,000,000 (1,000,000 itself
    included) when the other fields are valid, that is when the same request
    with the price 1.0 is accepted.  The price is the float that the supplied
    value reads as. *)
Theorem validate_input_price_range (rt : Runtime) (d prod : pydict)
  (x : pyval) (f : pyfloat) :
  dict_get "product" d = Some (PDict prod) ->
  dict_get "price" prod = Some x ->
  to_float rt x = Valid f ->
  (fle f f_zero = true \/ fgt f f_million = true ->
   result (validate_input rt (PDict d)) = Returns None)
  /\
  (fgt f f_zero = true -> fle f f_million = true ->
   is_valid (ProductListingRequest_fields rt (with_price (PFloat f_one) d prod)) = true ->
   exists validated,
     result (validate_input rt (PDict d)) = Returns (Some validated)
     /\ price (product validated) = f).
Proof.
  intros Hprod Hprice Hf.
  assert (Hfields :
    ProductListingRequest_fields rt d =
    Valid Build_ProductListingRequest
    <*> under (LocKey "product")
          (Valid Build_Product
           <*> field "name" None (str_schema (Some 1) (Some 100)) prod
           <*> under (LocKey "price")
                 (if fgt f f_zero then
                    if fgt f f_million
                    then Invalid [error "value_error" "Value error, Price too high"]
                    else Valid f
                  else Invalid [error "greater_than" "Input should be greater than 0"])
           <*> field "category" None category_schema prod
           <*> field "description" (Some None)
                 (optional_schema (str_schema None (Some 500))) prod
           <*> field "brand" (Some None)
                 (optional_schema (str_schema None (Some 50))) prod
           <*> field "in_stock" (Some true) bool_schema prod)
    <*> field "target_audience" (Some "general") (str_schema None None) d
    <*> field "tone" (Some "professional") (str_schema None None) d
    <*> field "language" (Some "English") (str_schema None None) d).
  { unfold ProductListingRequest_fields.
    rewrite (field_present "product" _ _ d _ Hprod). cbn [model_schema].
    unfold Product_fields.
    rewrite (field_present "price" _ _ prod _ Hprice).
    now rewrite (price_field_cases rt x f Hf). }
  rewrite validate_input_result, Hfields. clear Hfields.
  split.
  - intros Hout.
    assert (Hbad : (if fgt f f_zero
                    then if fgt f f_million
                         then Invalid [error "value_error" "Value error, Price too high"]
                         else Valid f
                    else Invalid [error "greater_than" "Input should be greater than 0"])
                   = Invalid
                       (if fgt f f_zero
                        then [error "value_error" "Value error, Price too high"]
                        else [error "greater_than" "Input should be greater than 0"])).
    { destruct Hout as [Hle | Hgt].
      - now rewrite (fle_not_fgt _ _ Hle).
      - rewrite Hgt. now destruct (fgt f f_zero). }
    rewrite Hbad.
    destruct (field "name" None (str_schema (Some 1) (Some 100)) prod),
             (field "category" None category_schema prod),
             (field "description" (Some None)
                (optional_schema (str_schema None (Some 500))) prod),
             (field "brand" (Some None)
                (optional_schema (str_schema None (Some 50))) prod),
             (field "in_stock" (Some true) bool_schema prod),
             (field "target_audience" (Some "general") (str_schema None None) d),
             (field "tone" (Some "professional") (str_schema None None) d),
             (field "language" (Some "English") (str_schema None None) d);
      reflexivity.
  - intros Hpos Hmax Hothers.
    rewrite Hpos, (fle_not_fgt _ _ Hmax).
    apply is_valid_true in Hothers. destruct Hothers as [v0 Hothers].
    unfold ProductListingRequest_fields, with_price in Hothers.
    rewrite field_set_same in Hothers.
    rewrite !field_set_other in Hothers by discriminate.
    cbn [model_schema] in Hothers. unfold Product_fields in Hothers.
    rewrite field_set_same in Hothers.
    rewrite !field_set_other in Hothers by discriminate.
    destruct (field "name" None (str_schema (Some 1) (Some 100)) prod),
             (field "category" None category_schema prod),
             (field "description" (Some None)
                (optional_schema (str_schema None (Some 500))) prod),
             (field "brand" (Some None)
                (optional_schema (str_schema None (Some 50))) prod),
             (field "in_stock" (Some true) bool_schema prod),
             (field "target_audience" (Some "general") (str_schema None None) d),
             (field "tone" (Some "professional") (str_schema None None) d),
             (field "language" (Some "English") (str_schema None None) d);
      try discriminate Hothers.
    eexists. split; reflexivity.
Qed.

Lemma validate_input_price_range_witness :
  (exists validated,
     result (validate_input Reference.runtime
               (plain_request (PStr "Mug") (PInt 1000000)))
     = Returns (Some validated)
     /\ price (product validated) = f_million)
  /\ result (validate_input Reference.runtime (plain_request (PStr "Mug") (PInt (-5))))
     = Returns None
  /\ result (validate_input Reference.runtime
               (plain_request (PStr "Mug") (PStr "1000000.01")))
     = Returns None.
Proof.
  split; [|split].
  - apply (validate_input_price_range Reference.runtime
             [("product", PDict (plain_product (PStr "Mug") (PInt 1000000)))]
             (plain_product (PStr "Mug") (PInt 1000000))
             (PInt 1000000) f_million); reflexivity.
  - apply (validate_input_price_range Reference.runtime
             [("product", PDict (plain_product (PStr "Mug") (PInt (-5))))]
             (plain_product (PStr "Mug") (PInt (-5)))
             (PInt (-5)) (float_of_Z (-5))); try reflexivity.
    left. reflexivity.
  - apply (validate_input_price_range Reference.runtime
             [("product", PDict (plain_product (PStr "Mug") (PStr "1000000.01")))]
             (plain_product (PStr "Mug") (PStr "1000000.01"))
             (PStr "1000000.01")
             (Reference.float_of_decimal false 100000001 (-2) 9)); try reflexivity.
    right. reflexivity.
Defined.

(** X20. The same bounds on the price in [validate_json_step3.py]. *)
Lemma Step3_price_range (rt : Runtime) (d prod : pydict) (x : pyval) (f : pyfloat) :
  dict_get "product" d = Some (PDict prod) ->
  dict_get "price" prod = Some x ->
  to_float rt x = Valid f ->
  (fle f f_zero = true \/ fgt f f_million = true ->
   is_valid (Step3.ProductListingRequest_fields rt d) = false)
  /\
  (fgt f f_zero = true -> fle f f_million = true ->
   is_valid (Step3.ProductListingRequest_fields rt (with_price (PFloat f_one) d prod))
   = true ->
   exists validated,
     Step3.ProductListingRequest_new rt (PDict d) = Returns validated
     /\ Step3.price (Step3.product validated) = f).
Proof.
  intros Hprod Hprice Hf.
  assert (Hcases :
    field_validator Step3.price_not_too_high (float_gt0_schema rt x) =
    if fgt f f_zero then
      if fgt f f_million
      then Invalid [error "value_error" "Value error, Price seems unrealistically high"]
      else Valid f
    else Invalid [error "greater_than" "Input should be greater than 0"]).
  { unfold float_gt0_schema. rewrite Hf.
    destruct (fgt f f_zero); [|reflexivity].
    cbn [field_validator]. unfold Step3.price_not_too_high.
    destruct (fgt f f_million); reflexivity. }
  split.
  - intros Hout.
    unfold Step3.ProductListingRequest_fields.
    rewrite !is_valid_vap, (field_present "product" _ _ d _ Hprod), is_valid_under.
    cbn [model_schema]. unfold Step3.Product_fields.
    rewrite !is_valid_vap, (field_present "price" _ _ prod _ Hprice), is_valid_under.
    rewrite Hcases.
    assert (Hbad : is_valid
              (if fgt f f_zero then
                 if fgt f f_million
                 then Invalid [error "value_error"
                                 "Value error, Price seems unrealistically high"]
                 else @Valid pyfloat f
               else Invalid [error "greater_than" "Input should be greater than 0"])
            = false).
    { destruct Hout as [Hle | Hgt].
      + now rewrite (fle_not_fgt _ _ Hle).
      + rewrite Hgt. now destruct (fgt f f_zero). }
    rewrite Hbad. cbn [is_valid andb]. now rewrite ?andb_false_r.
  - intros Hpos Hmax Hothers.
    apply is_valid_true in Hothers. destruct Hothers as [v0 Hothers].
    unfold Step3.ProductListingRequest_new, construct.
    unfold Step3.ProductListingRequest_fields, with_price in *.
    rewrite field_set_same in Hothers.
    rewrite !field_set_other in Hothers by discriminate.
    rewrite (field_present "product" _ _ d _ Hprod).
    cbn [model_schema] in *. unfold Step3.Product_fields in *.
    rewrite field_set_same in Hothers.
    rewrite !field_set_other in Hothers by discriminate.
    rewrite (field_present "price" _ _ prod _ Hprice), Hcases, Hpos,
      (fle_not_fgt _ _ Hmax).
    destruct (field "name" None _ prod),
             (field "category" None category_schema prod),
             (field "description" (Some None)
                (optional_schema (str_schema None (Some 500))) prod),
             (field "brand" (Some None)
                (optional_schema (str_schema None (Some 50))) prod),
             (field "in_stock" (Some true) bool_schema prod),
             (field "target_audience" (Some "general") (str_schema None None) d),
             (field "tone" (Some "professional") (str_schema None None) d),
             (field "language" (Some "English") (str_schema None None) d);
      try discriminate Hothers.
    eexists. split; reflexivity.
Qed.

(** ** Serialising a validated request and validating it again *)

Lemma field_valid {A} (k : string) (default : option A)
  (schema : pyval -> validation A) (d : pydict) (a : A) :
  field k default schema d = Valid a ->
  (exists x, dict_get k d = Some x /\ schema x = Valid a)
  \/ (dict_get k d = None /\ default = Some a).
Proof.
  unfold field. destruct (dict_get k d) as [x|].
  - intros H. apply under_valid in H. eauto.
  - destruct default as [a'|]; [|discriminate]. intros [= ->]. auto.
Qed.

Lemma str_schema_again (min_length max_length : option nat) (x : pyval) (s : string) :
  str_schema min_length max_length x = Valid s ->
  str_schema min_length max_length (PStr s) = Valid s.
Proof.
  unfold str_schema. destruct (as_str x) as [t|]; [|discriminate].
  cbn [as_str].
  destruct (match min_length with Some n => (String.length t <? n)%nat | None => false end) eqn:Hmin;
    [discriminate|].
  destruct (match max_length with Some n => (n <? String.length t)%nat | None => false end) eqn:Hmax;
    [discriminate|].
  intros [= <-]. now rewrite Hmin, Hmax.
Qed.

Lemma optional_str_again (max_length : option nat) (x : pyval) (o : option string) :
  optional_schema (str_schema None max_length) x = Valid o ->
  optional_schema (str_schema None max_length) (opt_str o) = Valid o.
Proof.
  unfold optional_schema.
  assert (Hsome : forall y, vmap Some (str_schema None max_length y) = Valid o ->
            match opt_str o with
            | PNone => Valid None
            | _ => vmap Some (str_schema None max_length (opt_str o))
            end = Valid o).
  { intros y Hy.
    destruct (str_schema None max_length y) as [s|] eqn:Hs; [|discriminate].
    cbn in Hy. injection Hy as <-. cbn [opt_str].
    now rewrite (str_schema_again _ _ _ _ Hs). }
  destruct x; try apply Hsome.
  intros [= <-]. reflexivity.
Qed.

Lemma price_again (rt : Runtime) (x : pyval) (f : pyfloat) :
  field_validator price_not_too_high (float_gt0_schema rt x) = Valid f ->
  field_validator price_not_too_high (float_gt0_schema rt (PFloat f)) = Valid f.
Proof.
  unfold float_gt0_schema.
  destruct (to_float rt x) as [g|]; [|discriminate].
  cbn [to_float].
  destruct (fgt g f_zero) eqn:Hpos; [|discriminate].
  intros H. cbn [field_validator] in H. unfold price_not_too_high in H.
  destruct (fgt g f_million) eqn:Hmax; [discriminate|].
  injection H as <-. rewrite Hpos.
  cbn [field_validator]. unfold price_not_too_high. now rewrite Hmax.
Qed.

Lemma Product_dict_valid (rt : Runtime) (prod : pydict) (p : Product) :
  Product_fields rt prod = Valid p ->
  model_schema "Product" (Product_fields rt) (Product_dict p) = Valid p.
Proof.
  intros H. unfold Product_fields in H.
  repeat (apply vap_valid in H; destruct H as (? & ? & H & ? & ?)).
  injection H as <-. subst.
  repeat match goal with
         | F : field _ _ _ _ = Valid _ |- _ => apply field_valid in F
         end.
  repeat match goal with
         | F : _ \/ _ |- _ => destruct F as [(? & _ & F) | [_ F]]
         end;
    try discriminate;
    repeat match goal with
           | F : Some _ = Some _ |- _ => injection F as <-
           end;
    unfold Product_dict;
    cbn [model_schema name price category description brand in_stock];
    unfold Product_fields; lookup_fields;
    repeat match goal with
           | F : str_schema _ _ _ = Valid _ |- _ =>
               apply str_schema_again in F; rewrite F; clear F
           | F : field_validator price_not_too_high _ = Valid _ |- _ =>
               apply price_again in F; rewrite F; clear F
           | F : optional_schema _ _ = Valid _ |- _ =>
               apply optional_str_again in F; rewrite F; clear F
           end;
    reflexivity.
Qed.

Lemma validate_input_returns (rt : Runtime) (json_data : pyval)
  (validated : ProductListingRequest) :
  result (validate_input rt json_data) = Returns (Some validated) ->
  exists d, json_data = PDict d /\ ProductListingRequest_fields rt d = Valid validated.
Proof.
  rewrite validate_input_cases. unfold construct.
  destruct json_data; try discriminate.
  destruct (ProductListingRequest_fields rt d) as [v|es] eqn:Hd; [|discriminate].
  intros [= <-]. eauto.
Qed.

(** C9. A request that input validation accepted, serialised with [.dict()]
    and validated again, is accepted again and yields the same request, field
    for field. *)
Theorem validate_input_dict_roundtrip (rt : Runtime) (json_data : pyval)
  (validated : ProductListingRequest) :
  result (validate_input rt json_data) = Returns (Some validated) ->
  result (validate_input rt (ProductListingRequest_dict validated))
  = Returns (Some validated).
Proof.
  intros H. apply validate_input_returns in H. destruct H as (d & -> & H).
  unfold ProductListingRequest_dict. rewrite validate_input_result.
  unfold ProductListingRequest_fields in H.
  repeat (apply vap_valid in H; destruct H as (? & ? & H & ? & ?)).
  injection H as <-. subst.
  match goal with
  | F : field "product" _ _ _ = Valid _ |- _ =>
      apply field_valid in F; destruct F as [(y & _ & F) | [_ F]]; [|discriminate]
  end.
  destruct y; try discriminate. cbn [model_schema] in *.
  match goal with
  | F : Product_fields _ _ = Valid _ |- _ => apply Product_dict_valid in F; rename F into Hp
  end.
  cbn [product target_audience tone language].
  unfold ProductListingRequest_fields. lookup_fields.
  rewrite Hp. reflexivity.
Qed.

Lemma validate_input_dict_roundtrip_witness :
  result (validate_input Reference.runtime (ProductListingRequest_dict test_request))
  = Returns (Some test_request).
Proof.
  apply (validate_input_dict_roundtrip Reference.runtime test_data test_request).
  vm_compute. reflexivity.
Defined.

(** ** The empty reply *)

(** C10. When input validation passed and the model client returns the empty
    string, the orchestrator reports [chatgpt_failed]: the text is tested for
    falsiness after [call_chatgpt] announced the reply as received, the
    output validator does not run (it prints nothing), and the result has no
    [raw_response]. *)
Theorem empty_reply_is_chatgpt_failed (rt : Runtime)
  (client : chat_request -> client_reply) (json_data : pyval)
  (validated : ProductListingRequest) :
  result (validate_input rt json_data) = Returns (Some validated) ->
  client (request rt validated) = Content (Some EmptyString) ->
  process_product_request rt client json_data
  = (app [nl ++ rule 60; "STARTING PROCESSING PIPELINE"; rule 60]
       (app (stdout (validate_input rt json_data))
          [nl ++ "3. Calling ChatGPT API..."; "   ✅ ChatGPT response received"]),
     Returns chatgpt_failed)
  /\ item "status" chatgpt_failed = Some (PStr "chatgpt_failed")
  /\ has_key "raw_response" chatgpt_failed = false.
Proof.
  intros Hin Hclient.
  apply validate_input_returns in Hin. destruct Hin as (d & -> & Hd).
  split; [|split; reflexivity].
  unfold process_product_request.
  rewrite !bind_print, validate_input_cases. cbn [construct]. rewrite Hd.
  cbn [bind]. rewrite call_chatgpt_cases, Hclient. reflexivity.
Qed.

Lemma empty_reply_is_chatgpt_failed_witness :
  result (process_product_request Reference.runtime (replies EmptyString) test_data)
  = Returns chatgpt_failed.
Proof.
  exact (f_equal snd
    (proj1 (empty_reply_is_chatgpt_failed Reference.runtime (replies EmptyString)
              test_data test_request eq_refl eq_refl))).
Defined.

(** ** Strings *)

Lemma append_nil_r (s : string) : s ++ EmptyString = s.
Proof. induction s; cbn; congruence. Qed.

Lemma append_assoc (s t u : string) : (s ++ t) ++ u = s ++ t ++ u.
Proof. induction s; cbn; congruence. Qed.

Lemma length_append (s t : string) :
  String.length (s ++ t) = String.length s + String.length t.
Proof. induction s; cbn; congruence. Qed.

Lemma contains_refl (s : string) : contains s s.
Proof. exists EmptyString, EmptyString. now rewrite append_nil_r. Qed.

Lemma contains_append_l (s t sub : string) : contains s sub -> contains (s ++ t) sub.
Proof.
  intros (b & a & ->). exists b, (a ++ t). now rewrite !append_assoc.
Qed.

Lemma contains_append_r (s t sub : string) : contains t sub -> contains (s ++ t) sub.
Proof.
  intros (b & a & ->). exists (s ++ b), a. now rewrite !append_assoc.
Qed.

(** Every joined piece is part of the joined string. *)
Lemma contains_join (sep : string) (l : list string) (x : string) :
  In x l -> contains (join sep l) x.
Proof.
  unfold join. induction l as [|a l IH]; [contradiction|].
  intros [-> | Hin]; cbn [concat]; destruct l as [|b l].
  - apply contains_refl.
  - apply contains_append_l, contains_refl.
  - contradiction.
  - now apply contains_append_r, contains_append_r, IH.
Qed.

(** ** The prompt *)

(** C8. The prompt is a function of the validated request alone (with the
    way the runtime formats floats and enumeration members): equal requests
    give equal prompts, and it is the user message that [call_chatgpt] sends.
    It holds the name, the price, the category, the brand, the description,
    the stock flag as [Yes] or [No], and the three generation parameters;
    [Not specified] stands for an absent brand and [No description provided]
    for an absent description. *)
Theorem prompt_embeds_request (rt : Runtime) (r : ProductListingRequest) :
  let p := prompt rt r in
  (forall r', r' = r -> prompt rt r' = p)
  /\ messages (request rt r)
     = [("system", "You are a marketing expert. Always respond with valid JSON.");
        ("user", p)]
  /\ contains p ("- Name: " ++ name (product r))
  /\ contains p ("- Price: $" ++ float_str rt (price (product r)))
  /\ contains p ("- Category: " ++ enum_format rt (category (product r)))
  /\ (brand (product r) = None -> contains p "- Brand: Not specified")
  /\ (forall b, brand (product r) = Some b -> b <> EmptyString ->
      contains p ("- Brand: " ++ b))
  /\ (description (product r) = None ->
      contains p "- Description: No description provided")
  /\ (forall t, description (product r) = Some t -> t <> EmptyString ->
      contains p ("- Description: " ++ t))
  /\ contains p ("- In Stock: " ++ (if in_stock (product r) then "Yes" else "No"))
  /\ contains p ("TARGET AUDIENCE: " ++ target_audience r)
  /\ contains p ("TONE: " ++ tone r)
  /\ contains p ("LANGUAGE: " ++ language r).
Proof.
  cbv zeta.
  repeat split; try (intros; subst; reflexivity);
    try (unfold prompt; apply contains_join; cbn [In]; tauto).
  - intros Hb. unfold prompt. apply contains_join. rewrite Hb. cbn [In or_else]. tauto.
  - intros b Hb Hne. unfold prompt. apply contains_join. rewrite Hb.
    destruct b as [|c b]; [contradiction|]. cbn [In or_else]. tauto.
  - intros Hd. unfold prompt. apply contains_join. rewrite Hd. cbn [In or_else]. tauto.
  - intros t Ht Hne. unfold prompt. apply contains_join. rewrite Ht.
    destruct t as [|c t]; [contradiction|]. cbn [In or_else]. tauto.
Qed.

Lemma prompt_embeds_request_witness :
  contains (prompt Reference.runtime bare_request) "- Brand: Not specified"
  /\ contains (prompt Reference.runtime bare_request)
       "- Description: No description provided"
  /\ contains (prompt Reference.runtime test_request) "- Brand: BrewMaster"
  /\ contains (prompt Reference.runtime test_request)
       "- Description: Programmable coffee maker with thermal carafe"
  /\ prompt Reference.runtime test_request = prompt Reference.runtime test_request.
Proof.
  pose proof (prompt_embeds_request Reference.runtime bare_request) as Hbare.
  pose proof (prompt_embeds_request Reference.runtime test_request) as Htest.
  cbv zeta in Hbare, Htest.
  destruct Hbare as (_ & _ & _ & _ & _ & Hbrand & _ & Hdesc & _).
  destruct Htest as (Hsame & _ & _ & _ & _ & _ & Hbrand' & _ & Hdesc' & _).
  split; [exact (Hbrand eq_refl)|].
  split; [exact (Hdesc eq_refl)|].
  split; [apply (Hbrand' "BrewMaster" eq_refl); discriminate|].
  split; [apply (Hdesc' "Programmable coffee maker with thermal carafe" eq_refl);
          discriminate|].
  exact (Hsame test_request eq_refl).
Defined.

(** ** Cleaning the reply *)

Lemma substring_head (s t : string) : substring 0 (String.length s) (s ++ t) = s.
Proof. induction s as [|c s IH]; cbn; [now destruct t | now rewrite IH]. Qed.

Lemma startswith_append (p s : string) : startswith (p ++ s) p = true.
Proof.
  induction p as [|c p IH]; cbn; [reflexivity|].
  now rewrite Ascii.eqb_refl.
Qed.

(** X1. A reply inside a JSON code fence loses the two fence markers, nothing else. *)
Lemma clean_response_json_fence (body : string) :
  clean_response ("```json" ++ body ++ "```") = body.
Proof.
  unfold clean_response. rewrite startswith_append.
  unfold slice_from_to_end.
  replace (String.length _ - 3 - 7) with (String.length body).
  - cbn [substring append]. apply substring_head.
  - cbn [String.length append]. rewrite length_append. cbn [String.length]. lia.
Qed.

(** X2. A reply inside a plain code fence, whose body does not start with
    [json], loses the two fence markers and nothing else. *)
Lemma clean_response_plain_fence (body : string) :
  startswith body "json" = false ->
  clean_response ("```" ++ body ++ "```") = body.
Proof.
  intros Hjson.
  assert (Hp : startswith ("```" ++ body ++ "```") "```json" = false).
  { destruct body as [|a [|b [|c [|d body]]]];
      cbn [startswith append] in *; case_chars. }
  unfold clean_response. rewrite Hp, startswith_append.
  unfold slice_from_to_end.
  replace (String.length _ - 3 - 3) with (String.length body).
  - cbn [substring append]. apply substring_head.
  - cbn [String.length append]. rewrite length_append. cbn [String.length]. lia.
Qed.

(** X3. A reply that does not open a fence is left as it is. *)
Lemma clean_response_no_fence (content : string) :
  startswith content "```" = false -> clean_response content = content.
Proof.
  intros H. unfold clean_response. rewrite H.
  replace (startswith content "```json") with false; [reflexivity|].
  symmetry.
  destruct content as [|a [|b [|c s]]]; cbn [startswith] in *; case_chars.
Qed.

(** C4. The fence markers are cut by position: 7 (or 3) characters from the
    front and 3 from the back, whether or not the reply ends with a fence.
    On a reply that opens a JSON fence and does not close it, the last three
    characters of the body are deleted: [{"a": 1}] loses [ 1}], and a reply
    that is valid without its opening marker is cut to text that no longer
    parses, so that the pipeline reports an output validation failure. *)
Theorem clean_response_unclosed_fence :
  clean_response unclosed_fence_reply = nl ++ "{" ++ quoted "a" ++ ":"
  /\ clean_response good_reply_unclosed
     = substring 0 (String.length (nl ++ good_reply) - 3) (nl ++ good_reply)
  /\ String.eqb (clean_response good_reply_unclosed) (nl ++ good_reply) = false
  /\ result (validate_chatgpt_response Reference.runtime (nl ++ good_reply))
     = Returns (Some good_response)
  /\ json_loads Reference.runtime (clean_response good_reply_unclosed)
     = JSONDecodeError
  /\ result (process_product_request Reference.runtime
               (replies good_reply_unclosed) test_data)
     = Returns (output_validation_failed (clean_response good_reply_unclosed))
  /\ result (process_product_request Reference.runtime
               (replies (good_reply_unclosed ++ nl ++ "```")) test_data)
     = Returns (success test_request good_response).
Proof. repeat split; vm_compute; reflexivity. Qed.

(** ** Errors of the input *)

Lemma errors_of_vap {A B} (f : validation (A -> B)) (v : validation A) :
  errors_of (f <*> v) = (errors_of f ++ errors_of v)%list.
Proof. destruct f, v; cbn; now rewrite ?app_nil_r. Qed.

(** The errors of a request are those of its fields, in the order of their
    declaration; likewise for the product. *)
Lemma ProductListingRequest_errors (rt : Runtime) (d : pydict) :
  errors_of (ProductListingRequest_fields rt d) =
  (errors_of (field "product" None (model_schema "Product" (Product_fields rt)) d)
   ++ errors_of (field "target_audience" (Some "general") (str_schema None None) d)
   ++ errors_of (field "tone" (Some "professional") (str_schema None None) d)
   ++ errors_of (field "language" (Some "English") (str_schema None None) d))%list.
Proof.
  unfold ProductListingRequest_fields. rewrite !errors_of_vap. cbn [errors_of app].
  now rewrite !app_assoc.
Qed.

Lemma Product_errors (rt : Runtime) (d : pydict) :
  errors_of (Product_fields rt d) =
  (errors_of (field "name" None (str_schema (Some 1) (Some 100)) d)
   ++ errors_of (field "price" None
        (fun x => field_validator price_not_too_high (float_gt0_schema rt x)) d)
   ++ errors_of (field "category" None category_schema d)
   ++ errors_of (field "description" (Some None)
        (optional_schema (str_schema None (Some 500))) d)
   ++ errors_of (field "brand" (Some None)
        (optional_schema (str_schema None (Some 50))) d)
   ++ errors_of (field "in_stock" (Some true) bool_schema d))%list.
Proof.
  unfold Product_fields. rewrite !errors_of_vap. cbn [errors_of app].
  now rewrite !app_assoc.
Qed.

(** C6, as the code has it. For every invalid input, [validate_input] prints
    the number of field errors and then, in order, one line for each error
    with the path to the field and the message (the kind is not shown); the
    errors are those of all the fields of the request.  It returns [None],
    and the result of the pipeline is the fixed dictionary with the status
    [input_validation_failed] and the error [Input data invalid], whatever
    the errors and whatever the model client. *)
Theorem validate_input_prints_errors (rt : Runtime)
  (client : chat_request -> client_reply) (d : pydict) (errors : list ErrorDetails) :
  ProductListingRequest_fields rt d = Invalid errors ->
  validate_input rt (PDict d)
  = ((nl ++ "2. Validating input data...")
     :: "   ❌ Input validation FAILED"
     :: ("   Found " ++ str_of_nat (List.length errors) ++ " error(s):")
     :: map error_line errors,
     Returns None)
  /\ errors
     = (errors_of (field "product" None (model_schema "Product" (Product_fields rt)) d)
        ++ errors_of (field "target_audience" (Some "general") (str_schema None None) d)
        ++ errors_of (field "tone" (Some "professional") (str_schema None None) d)
        ++ errors_of (field "language" (Some "English") (str_schema None None) d))%list
  /\ result (process_product_request rt client (PDict d))
     = Returns (PDict [("status", PStr "input_validation_failed");
                       ("error", PStr "Input data invalid")]).
Proof.
  intros Hd. split; [|split].
  - rewrite validate_input_cases. cbn [construct]. now rewrite Hd.
  - rewrite <- ProductListingRequest_errors, Hd. reflexivity.
  - rewrite process_product_request_result. cbn [construct]. now rewrite Hd.
Qed.

Lemma validate_input_prints_errors_witness :
  validate_input Reference.runtime negative_price
  = ([nl ++ "2. Validating input data...";
      "   ❌ Input validation FAILED";
      "   Found 1 error(s):";
      "     • product → price: Input should be greater than 0"],
     Returns None).
Proof.
  exact (proj1 (validate_input_prints_errors Reference.runtime (replies good_reply)
    [("product", PDict (plain_product (PStr "Premium Coffee Maker") (PInt (-5))))]
    [{| err_type := "greater_than";
        err_loc := [LocKey "product"; LocKey "price"];
        err_msg := "Input should be greater than 0" |}]
    eq_refl)).
Defined.

(** C6, as the specification has it, fails: two invalid inputs with different
    field errors get the same value from [validate_input], namely [None], and
    the same result from the pipeline, which names no field. *)
Lemma validate_input_returns_no_errors :
  construct (ProductListingRequest_fields Reference.runtime) negative_price
  = Raises (ValidationError
      [{| err_type := "greater_than";
          err_loc := [LocKey "product"; LocKey "price"];
          err_msg := "Input should be greater than 0" |}])
  /\ construct (ProductListingRequest_fields Reference.runtime) no_product
     = Raises (ValidationError
         [{| err_type := "missing";
             err_loc := [LocKey "product"];
             err_msg := "Field required" |};
          {| err_type := "string_type";
             err_loc := [LocKey "tone"];
             err_msg := "Input should be a valid string" |}])
  /\ result (validate_input Reference.runtime negative_price) = Returns None
  /\ result (validate_input Reference.runtime no_product) = Returns None
  /\ result (validate_input Reference.runtime negative_price)
     = result (validate_input Reference.runtime no_product)
  /\ result (process_product_request Reference.runtime (replies good_reply) negative_price)
     = Returns (PDict [("status", PStr "input_validation_failed");
                       ("error", PStr "Input data invalid")])
  /\ result (process_product_request Reference.runtime (replies good_reply) no_product)
     = Returns (PDict [("status", PStr "input_validation_failed");
                       ("error", PStr "Input data invalid")]).
Proof. repeat split; vm_compute; reflexivity. Qed.

(** ** Failures of the output *)

(** C1, as the code has it. A reply on which [json.loads] raises
    [JSONDecodeError], and a reply that parses to a JSON object that breaks
    the constraints of [ChatGPTResponse], both make
    [validate_chatgpt_response] return [None]; the two differ in what is
    printed only: one line for the first, a heading and one line for each
    field error for the second.  The orchestrator turns both into the same
    result, with the status [output_validation_failed], the same error text
    and the reply as [raw_response].  A reply on which [json.loads] raises
    another exception ([RecursionError], [ValueError]) is no failure of
    either kind: after the first line is printed the exception leaves
    [validate_chatgpt_response], and the orchestrator with it. *)
Theorem validate_chatgpt_response_failures (rt : Runtime) (response_text : string) :
  (json_loads rt response_text = JSONDecodeError ->
   validate_chatgpt_response rt response_text
   = ([nl ++ "4. Validating ChatGPT response...";
       "   ❌ Response is not valid JSON"], Returns None))
  /\ (forall d errors,
        json_loads rt response_text = Loaded (PDict d) ->
        ChatGPTResponse_fields d = Invalid errors ->
        validate_chatgpt_response rt response_text
        = ((nl ++ "4. Validating ChatGPT response...")
           :: "   ❌ Response validation FAILED"
           :: map error_line errors, Returns None))
  /\ (forall client json_data validated content,
        result (validate_input rt json_data) = Returns (Some validated) ->
        client (request rt validated) = Content (Some content) ->
        clean_response content = response_text ->
        response_text <> EmptyString ->
        result (validate_chatgpt_response rt response_text) = Returns None ->
        result (process_product_request rt client json_data)
        = Returns (PDict [("status", PStr "output_validation_failed");
                          ("error", PStr "ChatGPT response invalid");
                          ("raw_response", PStr response_text)]))
  /\ (forall e,
        json_loads rt response_text = LoadsRaises e ->
        validate_chatgpt_response rt response_text
        = ([nl ++ "4. Validating ChatGPT response..."], Raises (LoadsExn e))
        /\ forall client json_data validated content,
             result (validate_input rt json_data) = Returns (Some validated) ->
             client (request rt validated) = Content (Some content) ->
             clean_response content = response_text ->
             response_text <> EmptyString ->
             result (process_product_request rt client json_data)
             = Raises (LoadsExn e)).
Proof.
  split; [|split; [|split]].
  - intros Hparse. rewrite validate_chatgpt_response_cases. now rewrite Hparse.
  - intros d errors Hparse Hd.
    rewrite validate_chatgpt_response_cases, Hparse. cbn [construct]. now rewrite Hd.
  - intros client json_data validated content Hin Hclient Hclean Hne Hout.
    apply validate_input_returns in Hin. destruct Hin as (d & -> & Hd).
    rewrite process_product_request_result. cbn [construct].
    rewrite Hd, Hclient, Hclean.
    destruct response_text as [|c r]; [contradiction|].
    rewrite validate_chatgpt_response_cases in Hout.
    destruct (json_loads rt (String c r)) as [data| |e];
      [|reflexivity|discriminate Hout].
    destruct (construct ChatGPTResponse_fields data) as [out|[|errors|e|e]];
      try discriminate Hout; reflexivity.
  - intros e Hparse. split.
    + rewrite validate_chatgpt_response_cases. now rewrite Hparse.
    + intros client json_data validated content Hin Hclient Hclean Hne.
      apply validate_input_returns in Hin. destruct Hin as (d & -> & Hd).
      rewrite process_product_request_result. cbn [construct].
      rewrite Hd, Hclient, Hclean.
      destruct response_text as [|c r]; [contradiction|].
      cbv zeta. now rewrite Hparse.
Qed.

Lemma validate_chatgpt_response_failures_witness :
  validate_chatgpt_response Reference.runtime "not json at all"
  = ([nl ++ "4. Validating ChatGPT response...";
      "   ❌ Response is not valid JSON"], Returns None)
  /\ validate_chatgpt_response Reference.runtime "{}"
     = ([nl ++ "4. Validating ChatGPT response...";
         "   ❌ Response validation FAILED";
         "     • title: Field required";
         "     • description: Field required";
         "     • features: Field required";
         "     • keywords: Field required"], Returns None)
  /\ result (process_product_request Reference.runtime (replies "{}") test_data)
     = Returns (PDict [("status", PStr "output_validation_failed");
                       ("error", PStr "ChatGPT response invalid");
                       ("raw_response", PStr "{}")])
  /\ validate_chatgpt_response Reference.runtime deep_reply
     = ([nl ++ "4. Validating ChatGPT response..."], Raises (LoadsExn RecursionError))
  /\ result (process_product_request Reference.runtime (replies long_integer_reply)
               test_data)
     = Raises (LoadsExn ValueError).
Proof.
  pose proof (validate_chatgpt_response_failures Reference.runtime "not json at all")
    as (Hbad & _ & _ & _).
  pose proof (validate_chatgpt_response_failures Reference.runtime "{}")
    as (_ & Hshape & Hcaller & _).
  pose proof (validate_chatgpt_response_failures Reference.runtime deep_reply)
    as (_ & _ & _ & Hdeep).
  pose proof (validate_chatgpt_response_failures Reference.runtime long_integer_reply)
    as (_ & _ & _ & Hlong).
  split; [exact (Hbad eq_refl)|].
  split; [exact (Hshape [] _ eq_refl eq_refl)|].
  split; [apply (Hcaller (replies "{}") test_data test_request "{}");
          try reflexivity; discriminate|].
  split.
  - apply (Hdeep RecursionError). vm_compute. reflexivity.
  - apply (Hlong ValueError) with (validated := test_request)
                                  (content := long_integer_reply).
    + vm_compute. reflexivity.
    + reflexivity.
    + reflexivity.
    + vm_compute. reflexivity.
    + discriminate.
Defined.

(** C1, as the specification has it, fails: a reply that is not JSON and a
    reply that is JSON of the wrong shape get the same value from
    [validate_chatgpt_response], and results from the orchestrator that
    differ in nothing but the echoed reply. *)
Lemma validate_chatgpt_response_conflates :
  json_loads Reference.runtime "not json at all" = JSONDecodeError
  /\ json_loads Reference.runtime "{}" = Loaded (PDict [])
  /\ is_valid (ChatGPTResponse_fields []) = false
  /\ result (validate_chatgpt_response Reference.runtime "not json at all")
     = result (validate_chatgpt_response Reference.runtime "{}")
  /\ result (validate_chatgpt_response Reference.runtime "{}") = Returns None
  /\ result (process_product_request Reference.runtime (replies "not json at all") test_data)
     = Returns (output_validation_failed "not json at all")
  /\ result (process_product_request Reference.runtime (replies "{}") test_data)
     = Returns (output_validation_failed "{}").
Proof. repeat split; vm_compute; reflexivity. Qed.

(** ** Exceptions that escape *)

(** C7. A reply that is valid JSON but not an object (here an array)
    makes the construction of [ChatGPTResponse] raise [TypeError]:
    [validate_chatgpt_response] handles [JSONDecodeError] and
    [ValidationError] only, so the exception leaves it and leaves the
    orchestrator, which returns no result.  The same happens in
    [validate_input] when the raw data is not a [dict]. *)
Theorem non_object_reply_escapes :
  json_loads Reference.runtime "[1, 2, 3]" = Loaded (PList [PInt 1; PInt 2; PInt 3])
  /\ result (validate_input Reference.runtime test_data) = Returns (Some test_request)
  /\ validate_chatgpt_response Reference.runtime "[1, 2, 3]"
     = ([nl ++ "4. Validating ChatGPT response..."], Raises TypeError)
  /\ result (process_product_request Reference.runtime (replies "[1, 2, 3]") test_data)
     = Raises TypeError
  /\ result (validate_input Reference.runtime (PList [test_data])) = Raises TypeError
  /\ result (process_product_request Reference.runtime (replies good_reply)
               (PList [test_data]))
     = Raises TypeError.
Proof. repeat split; vm_compute; reflexivity. Qed.

(** Every result that the orchestrator does return has one of the four
    statuses; it has a [raw_response] exactly when the status is
    [output_validation_failed], and a successful one holds the validated
    input and the validated output. *)
Lemma process_product_request_shape (rt : Runtime)
  (client : chat_request -> client_reply) (json_data r : pyval) :
  result (process_product_request rt client json_data) = Returns r ->
  (r = input_validation_failed
   /\ result (validate_input rt json_data) = Returns None)
  \/ (exists validated_input,
        result (validate_input rt json_data) = Returns (Some validated_input)
        /\ (r = chatgpt_failed
            \/ (exists chatgpt_response,
                  r = output_validation_failed chatgpt_response
                  /\ result (validate_chatgpt_response rt chatgpt_response)
                     = Returns None)
            \/ (exists chatgpt_response validated_output,
                  r = success validated_input validated_output
                  /\ result (validate_chatgpt_response rt chatgpt_response)
                     = Returns (Some validated_output)))).
Proof.
  rewrite process_product_request_result, validate_input_cases.
  destruct (construct (ProductListingRequest_fields rt) json_data)
    as [v|[|errors|e|e]]; try discriminate.
  2: { intros [= <-]. left. split; reflexivity. }
  intros H. right. exists v. split; [reflexivity|].
  destruct (client (request rt v)) as [[content|]|e].
  - destruct (clean_response content) as [|c s].
    { injection H as <-. now left. }
    cbv zeta in H.
    destruct (json_loads rt (String c s)) as [data| |le] eqn:Hj; [| |discriminate H].
    + destruct (construct ChatGPTResponse_fields data) as [out|[|errors|e|e]] eqn:Hc;
        try discriminate; injection H as <-; right.
      * right. exists (String c s), out.
        split; [reflexivity|].
        now rewrite validate_chatgpt_response_cases, Hj, Hc.
      * left. exists (String c s). split; [reflexivity|].
        now rewrite validate_chatgpt_response_cases, Hj, Hc.
    + injection H as <-. right. left. exists (String c s). split; [reflexivity|].
      now rewrite validate_chatgpt_response_cases, Hj.
  - injection H as <-. now left.
  - destruct (is_Exception e); [|discriminate]. injection H as <-. now left.
Qed.

Lemma result_statuses (r : pyval) :
  (r = input_validation_failed \/ r = chatgpt_failed
   \/ (exists t, r = output_validation_failed t)
   \/ (exists i o, r = success i o)) ->
  (item "status" r = Some (PStr "success")
   \/ item "status" r = Some (PStr "input_validation_failed")
   \/ item "status" r = Some (PStr "chatgpt_failed")
   \/ item "status" r = Some (PStr "output_validation_failed"))
  /\ (has_key "raw_response" r = true
      <-> item "status" r = Some (PStr "output_validation_failed")).
Proof.
  intros [-> | [-> | [[t ->] | (i & o & ->)]]]; cbn; split; auto;
    split; intros; (discriminate || reflexivity).
Qed.

(** C2. With a valid request and a reply that is JSON but not an object
    (here [null]), the orchestrator returns no result at all, hence none with
    a status: the [TypeError] of the third stage leaves it. *)
Theorem process_product_request_no_result :
  result (validate_input Reference.runtime test_data) = Returns (Some test_request)
  /\ call_chatgpt Reference.runtime (replies "null") test_request
     = ([nl ++ "3. Calling ChatGPT API..."; "   ✅ ChatGPT response received"],
        Returns (Some "null"))
  /\ json_loads Reference.runtime "null" = Loaded PNone
  /\ validate_chatgpt_response Reference.runtime "null"
     = ([nl ++ "4. Validating ChatGPT response..."], Raises TypeError)
  /\ result (process_product_request Reference.runtime (replies "null") test_data)
     = Raises TypeError.
Proof. repeat split; vm_compute; reflexivity. Qed.

(** ** The name *)

(** X18. In [validate_json_step3.py] a name without a letter, or a name
    that is not a string, is refused. *)
Lemma Step3_name_without_letter (rt : Runtime) (d prod : pydict) (x : pyval) :
  dict_get "product" d = Some (PDict prod) ->
  dict_get "name" prod = Some x ->
  (forall s, as_str x = Some s -> any isalpha s = false) ->
  is_valid (Step3.ProductListingRequest_fields rt d) = false.
Proof.
  intros Hprod Hname Hletters.
  unfold Step3.ProductListingRequest_fields.
  rewrite !is_valid_vap, (field_present "product" _ _ d _ Hprod), is_valid_under.
  cbn [model_schema]. unfold Step3.Product_fields.
  rewrite !is_valid_vap, (field_present "name" _ _ prod _ Hname), is_valid_under.
  assert (Hbad : is_valid (field_validator Step3.name_must_contain_letters
                             (str_schema (Some 1) (Some 100) x)) = false).
  { unfold str_schema.
    destruct (as_str x) as [s|] eqn:Hs; [|reflexivity].
    specialize (Hletters s eq_refl).
    destruct (String.length s <? 1)%nat; [reflexivity|].
    destruct (100 <? String.length s)%nat; [reflexivity|].
    cbn. unfold Step3.name_must_contain_letters. now rewrite Hletters. }
  rewrite Hbad. cbn [is_valid andb]. now rewrite ?andb_false_r.
Qed.

(** X19. In [validate_json_step3.py] the name of an accepted product holds
    a letter and is stored without the whitespace around it. *)
Lemma Step3_name_trimmed (rt : Runtime) (d : pydict)
  (validated : Step3.ProductListingRequest) :
  Step3.ProductListingRequest_fields rt d = Valid validated ->
  exists prod x s,
    dict_get "product" d = Some (PDict prod)
    /\ dict_get "name" prod = Some x
    /\ as_str x = Some s
    /\ any isalpha s = true
    /\ Step3.name (Step3.product validated) = strip s.
Proof.
  intros H. unfold Step3.ProductListingRequest_fields in H.
  repeat (apply vap_valid in H; destruct H as (? & ? & H & ? & ?)).
  injection H as <-. subst. cbn [Step3.product].
  match goal with
  | F : field "product" _ _ _ = Valid _ |- _ =>
      apply field_valid in F; destruct F as [(y & Hy & F) | [_ F]]; [|discriminate]
  end.
  destruct y as [| | | | | |prod|]; try discriminate. cbn [model_schema] in *.
  match goal with
  | F : Step3.Product_fields _ _ = Valid _ |- _ => rename F into Hp
  end.
  unfold Step3.Product_fields in Hp.
  repeat (apply vap_valid in Hp; destruct Hp as (? & ? & Hp & ? & ?)).
  injection Hp as <-. subst. cbn [Step3.name].
  match goal with
  | F : field "name" _ _ _ = Valid _ |- _ =>
      apply field_valid in F; destruct F as [(x & Hx & F) | [_ F]]; [|discriminate]
  end.
  unfold str_schema in *.
  destruct (as_str x) as [s|] eqn:Hs; [|discriminate].
  destruct (String.length s <? 1)%nat; [discriminate|].
  destruct (100 <? String.length s)%nat; [discriminate|].
  cbn [field_validator] in *. unfold Step3.name_must_contain_letters in *.
  destruct (any isalpha s) eqn:Hl; [|discriminate].
  cbn [negb] in *.
  match goal with
  | F : Valid _ = Valid _ |- _ => injection F as <-
  end.
  exists prod, x, s. auto.
Qed.

(** C3. In [step4_integration.py] the model [Product] has no validator for
    the name: the request whose product is named [12345], which
    [validate_json_step3.py] refuses for want of a letter, passes input
    validation, and a name with spaces around it is stored as it came, where
    [validate_json_step3.py] stores it trimmed. *)
Theorem step4_accepts_name_without_letter :
  Step3.ProductListingRequest_new Reference.runtime digits_name
  = Raises (ValidationError
      [{| err_type := "value_error";
          err_loc := [LocKey "product"; LocKey "name"];
          err_msg := "Value error, Name must contain letters" |}])
  /\ (exists validated,
        result (validate_input Reference.runtime digits_name) = Returns (Some validated)
        /\ name (product validated) = "12345"
        /\ any isalpha (name (product validated)) = false)
  /\ (exists validated,
        Step3.ProductListingRequest_new Reference.runtime padded_name = Returns validated
        /\ Step3.name (Step3.product validated) = "Mug")
  /\ (exists validated,
        result (validate_input Reference.runtime padded_name) = Returns (Some validated)
        /\ name (product validated) = "  Mug "
        /\ strip "  Mug " = "Mug").
Proof.
  split; [vm_compute; reflexivity|].
  split; [|split]; eexists; repeat split; vm_compute; reflexivity.
Qed.

(* ================================================================== *)
(** * Further properties of the pipeline *)
(* ================================================================== *)

(** ** Cleaning the reply, continued *)

Lemma clean_response_plain_fence_witness :
  startswith (nl ++ good_reply ++ nl) "json" = false
  /\ clean_response ("```" ++ (nl ++ good_reply ++ nl) ++ "```")
     = nl ++ good_reply ++ nl.
Proof.
  split; [reflexivity|].
  exact (clean_response_plain_fence (nl ++ good_reply ++ nl) eq_refl).
Defined.

Lemma clean_response_no_fence_witness :
  startswith good_reply "```" = false /\ clean_response good_reply = good_reply.
Proof.
  split; [reflexivity|].
  exact (clean_response_no_fence good_reply eq_refl).
Defined.

Lemma substring_is_prefix (m : nat) (s : string) :
  exists rest, s = substring 0 m s ++ rest.
Proof.
  revert m. induction s as [|c s IH]; intros [|m]; cbn.
  - now exists EmptyString.
  - now exists EmptyString.
  - now exists (String c s).
  - destruct (IH m) as [rest Hrest]. exists rest. now rewrite <- Hrest.
Qed.

Lemma substring_contains (n m : nat) (s : string) : contains s (substring n m s).
Proof.
  revert n. induction s as [|c s IH]; intros n.
  - destruct n, m; apply contains_refl.
  - destruct n as [|n].
    + destruct (substring_is_prefix m (String c s)) as [rest Hrest].
      exists EmptyString, rest. exact Hrest.
    + cbn [substring]. destruct (IH n) as (b & a & Hs).
      exists (String c b), a. cbn [append]. now rewrite <- Hs.
Qed.

(** X4. Whatever the reply, what [call_chatgpt] keeps of it is one piece of
    the reply as it came: nothing is added, nothing is reordered, and the
    result is never longer than the reply. *)
Theorem clean_response_keeps_a_part (content : string) :
  contains content (clean_response content)
  /\ String.length (clean_response content) <= String.length content.
Proof.
  assert (H : contains content (clean_response content)).
  { unfold clean_response, slice_from_to_end.
    destruct (startswith content "```json"); [apply substring_contains|].
    destruct (startswith content "```");
      [apply substring_contains | apply contains_refl]. }
  split; [exact H|].
  destruct H as (b & a & H).
  rewrite H at 2. rewrite !length_append. lia.
Qed.

Lemma startswith_length (s p : string) :
  startswith s p = true -> String.length p <= String.length s.
Proof.
  revert s. induction p as [|a p IH]; intros s H; cbn; [lia|].
  destruct s as [|b s]; [discriminate|]. cbn in *.
  apply andb_prop in H. destruct H as [_ H]. apply IH in H. lia.
Qed.

Lemma substring_zero (n : nat) (s : string) : substring n 0 s = EmptyString.
Proof.
  revert n. induction s as [|c s IH]; intros [|n]; cbn; auto.
Qed.

(** A reply that opens a fence and has no more than the two markers. *)
Lemma clean_response_short_fence (content : string) :
  (startswith content "```json" = true /\ String.length content <= 10)
  \/ (startswith content "```" = true /\ String.length content <= 6) ->
  clean_response content = EmptyString.
Proof.
  unfold clean_response, slice_from_to_end.
  intros [[Hj Hlen] | [Hf Hlen]].
  - rewrite Hj.
    replace (String.length content - 3 - 7) with 0 by lia. apply substring_zero.
  - destruct (startswith content "```json") eqn:Hj.
    + apply startswith_length in Hj. cbn in Hj. lia.
    + rewrite Hf.
      replace (String.length content - 3 - 3) with 0 by lia. apply substring_zero.
Qed.

(** X5. When input validation passed and the model replies with a code
    fence that holds nothing (at most the opening and the closing marker:
    ten characters after [```json], six after [```]), cleaning leaves the
    empty string and the orchestrator reports [chatgpt_failed], not an
    output validation failure. *)
Theorem empty_fence_is_chatgpt_failed (rt : Runtime)
  (client : chat_request -> client_reply) (json_data : pyval)
  (validated : ProductListingRequest) (content : string) :
  result (validate_input rt json_data) = Returns (Some validated) ->
  client (request rt validated) = Content (Some content) ->
  (startswith content "```json" = true /\ String.length content <= 10)
  \/ (startswith content "```" = true /\ String.length content <= 6) ->
  result (process_product_request rt client json_data)
  = Returns (PDict [("status", PStr "chatgpt_failed");
                    ("error", PStr "ChatGPT API call failed")]).
Proof.
  intros Hin Hclient Hshort.
  apply validate_input_returns in Hin. destruct Hin as (d & -> & Hd).
  rewrite process_product_request_result. cbn [construct].
  rewrite Hd, Hclient, (clean_response_short_fence content Hshort). reflexivity.
Qed.

Lemma empty_fence_is_chatgpt_failed_witness :
  result (process_product_request Reference.runtime (replies "```json```") test_data)
  = Returns chatgpt_failed
  /\ result (process_product_request Reference.runtime (replies "``````") test_data)
     = Returns chatgpt_failed.
Proof.
  split.
  - apply (empty_fence_is_chatgpt_failed Reference.runtime (replies "```json```")
             test_data test_request "```json```"); try reflexivity.
    left. split; [reflexivity | cbn; lia].
  - apply (empty_fence_is_chatgpt_failed Reference.runtime (replies "``````")
             test_data test_request "``````"); try reflexivity.
    right. split; [reflexivity | cbn; lia].
Defined.

(** ** The model client *)

(** X6. When input validation passed and the call of the model client
    raises anything that derives from [Exception], or its reply has no
    content, [call_chatgpt] prints one error line and returns [None], the
    orchestrator reports [chatgpt_failed], and the output validator is not
    run: the console shows nothing after the error line. *)
Theorem client_failure_is_chatgpt_failed (rt : Runtime)
  (client : chat_request -> client_reply) (json_data : pyval)
  (validated : ProductListingRequest) :
  result (validate_input rt json_data) = Returns (Some validated) ->
  (client (request rt validated) = Content None
   \/ exists e, client (request rt validated) = Fails e /\ is_Exception e = true) ->
  exists message,
    call_chatgpt rt client validated
    = ([nl ++ "3. Calling ChatGPT API..."; "   ❌ ChatGPT API error: " ++ message],
       Returns None)
    /\ process_product_request rt client json_data
       = (app [nl ++ rule 60; "STARTING PROCESSING PIPELINE"; rule 60]
            (app (stdout (validate_input rt json_data))
               [nl ++ "3. Calling ChatGPT API...";
                "   ❌ ChatGPT API error: " ++ message]),
          Returns (PDict [("status", PStr "chatgpt_failed");
                          ("error", PStr "ChatGPT API call failed")])).
Proof.
  intros Hin Hclient.
  apply validate_input_returns in Hin. destruct Hin as (d & -> & Hd).
  assert (Hcall : exists message,
            call_chatgpt rt client validated
            = ([nl ++ "3. Calling ChatGPT API...";
                "   ❌ ChatGPT API error: " ++ message], Returns None)).
  { rewrite call_chatgpt_cases.
    destruct Hclient as [-> | (e & -> & ->)]; eexists; reflexivity. }
  destruct Hcall as [message Hcall]. exists message. split; [exact Hcall|].
  unfold process_product_request.
  rewrite !bind_print, validate_input_cases. cbn [construct]. rewrite Hd.
  cbn [bind]. rewrite Hcall. reflexivity.
Qed.

Lemma client_failure_is_chatgpt_failed_witness :
  exists message,
    call_chatgpt Reference.runtime (stub (Fails transport_error)) test_request
    = ([nl ++ "3. Calling ChatGPT API..."; "   ❌ ChatGPT API error: " ++ message],
       Returns None)
    /\ process_product_request Reference.runtime (stub (Fails transport_error)) test_data
       = (app [nl ++ rule 60; "STARTING PROCESSING PIPELINE"; rule 60]
            (app (stdout (validate_input Reference.runtime test_data))
               [nl ++ "3. Calling ChatGPT API...";
                "   ❌ ChatGPT API error: " ++ message]),
          Returns (PDict [("status", PStr "chatgpt_failed");
                          ("error", PStr "ChatGPT API call failed")])).
Proof.
  apply (client_failure_is_chatgpt_failed Reference.runtime
           (stub (Fails transport_error)) test_data test_request eq_refl).
  right. exists transport_error. split; reflexivity.
Defined.

(** ** The orchestrator *)

(** X7. When input validation fails, the model client is not consulted:
    whatever the client, the orchestrator prints the same lines and returns
    the same result. *)
Theorem invalid_input_never_calls_client (rt : Runtime)
  (client client' : chat_request -> client_reply) (json_data : pyval) :
  result (validate_input rt json_data) = Returns None ->
  process_product_request rt client json_data
  = process_product_request rt client' json_data
  /\ process_product_request rt client json_data
     = (app [nl ++ rule 60; "STARTING PROCESSING PIPELINE"; rule 60]
          (stdout (validate_input rt json_data)),
        Returns (PDict [("status", PStr "input_validation_failed");
                        ("error", PStr "Input data invalid")])).
Proof.
  intros H.
  assert (Hany : forall c,
    process_product_request rt c json_data
    = (app [nl ++ rule 60; "STARTING PROCESSING PIPELINE"; rule 60]
         (stdout (validate_input rt json_data)),
       Returns input_validation_failed)).
  { intros c. unfold process_product_request. rewrite !bind_print.
    destruct (validate_input rt json_data) as [out [[v|]|e]]; try discriminate H.
    cbn. now rewrite app_nil_r. }
  split; [now rewrite !Hany | apply Hany].
Qed.

Lemma invalid_input_never_calls_client_witness :
  process_product_request Reference.runtime (replies good_reply) negative_price
  = process_product_request Reference.runtime (stub (Fails interrupt)) negative_price.
Proof.
  exact (proj1 (invalid_input_never_calls_client Reference.runtime
                  (replies good_reply) (stub (Fails interrupt)) negative_price eq_refl)).
Defined.

(** X8. Every result that the orchestrator returns is a dictionary whose
    status is one of [success], [input_validation_failed], [chatgpt_failed]
    and [output_validation_failed]; it has the key [raw_response] exactly
    when the status is [output_validation_failed], the key [error] exactly
    when the status is not [success], and the keys [input] and [output]
    exactly when it is. *)
Theorem returned_result_shape (rt : Runtime)
  (client : chat_request -> client_reply) (json_data r : pyval) :
  result (process_product_request rt client json_data) = Returns r ->
  (item "status" r = Some (PStr "success")
   \/ item "status" r = Some (PStr "input_validation_failed")
   \/ item "status" r = Some (PStr "chatgpt_failed")
   \/ item "status" r = Some (PStr "output_validation_failed"))
  /\ (has_key "raw_response" r = true
      <-> item "status" r = Some (PStr "output_validation_failed"))
  /\ (has_key "error" r = false <-> item "status" r = Some (PStr "success"))
  /\ (has_key "input" r = true <-> item "status" r = Some (PStr "success"))
  /\ (has_key "output" r = true <-> item "status" r = Some (PStr "success")).
Proof.
  intros H. apply process_product_request_shape in H.
  assert (Hr : r = input_validation_failed \/ r = chatgpt_failed
               \/ (exists t, r = output_validation_failed t)
               \/ (exists i o, r = success i o)).
  { destruct H as [[-> _] | (v & _ & [-> | [(t & -> & _) | (t & o & -> & _)]])];
      eauto 6. }
  destruct Hr as [-> | [-> | [[t ->] | (i & o & ->)]]]; cbn;
    repeat split; auto; intros; (discriminate || reflexivity).
Qed.

Lemma returned_result_shape_witness :
  item "status" (output_validation_failed "not json at all")
  = Some (PStr "output_validation_failed")
  /\ has_key "raw_response" (output_validation_failed "not json at all") = true.
Proof.
  pose proof (returned_result_shape Reference.runtime (replies "not json at all")
                test_data (output_validation_failed "not json at all") eq_refl)
    as (_ & Hraw & _).
  split; [reflexivity|]. apply Hraw. reflexivity.
Defined.



(** X10. The console output of the orchestrator is its banner followed by
    the output of the stages that ran, in their order: [validate_input]
    always; [call_chatgpt] when the input was accepted; and
    [validate_chatgpt_response], on the cleaned reply, when that reply is not
    empty.  No stage prints after a later one, and a stage that did not run
    prints nothing. *)
Theorem console_output_by_stage (rt : Runtime)
  (client : chat_request -> client_reply) (json_data : pyval) :
  stdout (process_product_request rt client json_data)
  = app [nl ++ rule 60; "STARTING PROCESSING PIPELINE"; rule 60]
      (app (stdout (validate_input rt json_data))
         match result (validate_input rt json_data) with
         | Returns (Some validated_input) =>
             app (stdout (call_chatgpt rt client validated_input))
               match result (call_chatgpt rt client validated_input) with
               | Returns (Some (String c r)) =>
                   stdout (validate_chatgpt_response rt (String c r))
               | _ => []
               end
         | _ => []
         end).
Proof.
  unfold process_product_request. rewrite !bind_print.
  cbn [stdout fst app]. do 3 f_equal.
  rewrite stdout_bind.
  destruct (validate_input rt json_data) as [out [[v|]|e]]; cbn [result snd stdout fst];
    try (cbn; now rewrite ?app_nil_r).
  f_equal. rewrite stdout_bind.
  destruct (call_chatgpt rt client v) as [out' [[[|c r]|]|e]];
    cbn [result snd stdout fst]; try (cbn; now rewrite ?app_nil_r).
  f_equal. rewrite stdout_bind.
  destruct (validate_chatgpt_response rt (String c r)) as [out'' [[o|]|e]];
    cbn; now rewrite ?app_nil_r.
Qed.

(** X11. When the input is accepted, the model replies with text whose
    cleaned form is not empty and parses to a JSON object that meets the
    constraints of [ChatGPTResponse], the orchestrator returns the success
    result: its [input] is the [.dict()] of the validated request, its
    [output] the [.dict()] of the validated response, and it has no [error]
    and no [raw_response]. *)
Theorem valid_reply_is_success (rt : Runtime)
  (client : chat_request -> client_reply) (json_data : pyval)
  (validated_input : ProductListingRequest) (content : string)
  (d : pydict) (validated_output : ChatGPTResponse) :
  result (validate_input rt json_data) = Returns (Some validated_input) ->
  client (request rt validated_input) = Content (Some content) ->
  clean_response content <> EmptyString ->
  json_loads rt (clean_response content) = Loaded (PDict d) ->
  ChatGPTResponse_fields d = Valid validated_output ->
  exists r,
    result (process_product_request rt client json_data) = Returns r
    /\ item "status" r = Some (PStr "success")
    /\ item "input" r = Some (ProductListingRequest_dict validated_input)
    /\ item "output" r = Some (ChatGPTResponse_dict validated_output)
    /\ has_key "error" r = false
    /\ has_key "raw_response" r = false.
Proof.
  intros Hin Hclient Hne Hj Hd.
  apply validate_input_returns in Hin. destruct Hin as (d0 & -> & Hd0).
  exists (success validated_input validated_output).
  split; [|repeat split; reflexivity].
  rewrite process_product_request_result. cbn [construct].
  rewrite Hd0, Hclient.
  destruct (clean_response content) as [|c s]; [contradiction|].
  cbv zeta. rewrite Hj. cbn [construct]. now rewrite Hd.
Qed.

Lemma valid_reply_is_success_witness :
  exists r,
    result (process_product_request Reference.runtime
              (replies ("```json" ++ nl ++ good_reply ++ nl ++ "```")) test_data)
    = Returns r
    /\ item "status" r = Some (PStr "success")
    /\ item "input" r = Some (ProductListingRequest_dict test_request)
    /\ item "output" r = Some (ChatGPTResponse_dict good_response)
    /\ has_key "error" r = false
    /\ has_key "raw_response" r = false.
Proof.
  refine (valid_reply_is_success Reference.runtime
            (replies ("```json" ++ nl ++ good_reply ++ nl ++ "```")) test_data
            test_request ("```json" ++ nl ++ good_reply ++ nl ++ "```")
            [("title", PStr (title good_response));
             ("description", PStr (description' good_response));
             ("features", PList (map PStr (features good_response)));
             ("keywords", PStr (keywords good_response))]
            good_response eq_refl eq_refl _ _ eq_refl).
  - vm_compute. discriminate.
  - vm_compute. reflexivity.
Defined.

(** ** The input schema *)

Lemma str_schema_bounds (min_length max_length : option nat) (x : pyval) (s : string) :
  str_schema min_length max_length x = Valid s ->
  as_str x = Some s
  /\ (forall n, min_length = Some n -> n <= String.length s)
  /\ (forall n, max_length = Some n -> String.length s <= n).
Proof.
  unfold str_schema. destruct (as_str x) as [t|]; [|discriminate].
  destruct min_length as [mn|], max_length as [mx|];
    repeat match goal with
           | |- context [(?a <? ?b)%nat] => destruct (Nat.ltb_spec a b)
           end;
    try discriminate; intros [= <-];
    (split; [reflexivity|]); split; intros n [= <-]; lia.
Qed.

Lemma optional_str_bounds (max_length : nat) (x : pyval) (o : option string) :
  optional_schema (str_schema None (Some max_length)) x = Valid o ->
  forall t, o = Some t -> String.length t <= max_length.
Proof.
  intros H t ->. unfold optional_schema in H.
  assert (Hs : str_schema None (Some max_length) x = Valid t).
  { destruct x; try discriminate H;
      match type of H with
      | vmap Some ?v = _ => destruct v; cbn in H; congruence
      end. }
  apply str_schema_bounds in Hs. destruct Hs as (_ & _ & Hmax). now apply Hmax.
Qed.

Lemma price_field_bounds (rt : Runtime) (x : pyval) (f : pyfloat) :
  field_validator price_not_too_high (float_gt0_schema rt x) = Valid f ->
  fgt f f_zero = true /\ fgt f f_million = false.
Proof.
  unfold float_gt0_schema.
  destruct (to_float rt x) as [g|]; [|discriminate].
  destruct (fgt g f_zero) eqn:Hpos; [|discriminate].
  cbn [field_validator]. unfold price_not_too_high.
  destruct (fgt g f_million) eqn:Hmax; [discriminate|].
  intros [= <-]. auto.
Qed.

(** X12. Every request that [validate_input] returns meets the constraints
    that the models declare: a name of 1 to 100 characters, a price greater
    than 0 and not greater than 1,000,000, a description of at most 500
    characters and a brand of at most 50, when there is one. *)
Theorem accepted_request_meets_constraints (rt : Runtime) (json_data : pyval)
  (validated : ProductListingRequest) :
  result (validate_input rt json_data) = Returns (Some validated) ->
  1 <= String.length (name (product validated)) <= 100
  /\ fgt (price (product validated)) f_zero = true
  /\ fgt (price (product validated)) f_million = false
  /\ (forall t, description (product validated) = Some t -> String.length t <= 500)
  /\ (forall b, brand (product validated) = Some b -> String.length b <= 50).
Proof.
  intros H. apply validate_input_returns in H. destruct H as (d & -> & H).
  unfold ProductListingRequest_fields in H.
  repeat (apply vap_valid in H; destruct H as (? & ? & H & ? & ?)).
  injection H as <-. subst. cbn [product].
  match goal with
  | F : field "product" _ _ _ = Valid _ |- _ =>
      apply field_valid in F; destruct F as [(y & _ & F) | [_ F]]; [|discriminate]
  end.
  destruct y as [| | | | | |prod|]; try discriminate. cbn [model_schema] in *.
  match goal with
  | F : Product_fields _ _ = Valid _ |- _ => rename F into Hp
  end.
  unfold Product_fields in Hp.
  repeat (apply vap_valid in Hp; destruct Hp as (? & ? & Hp & ? & ?)).
  injection Hp as <-. subst. cbn [name price description brand].
  repeat match goal with
         | F : field _ _ _ _ = Valid _ |- _ => apply field_valid in F
         end.
  repeat match goal with
         | F : (exists _, _) \/ _ |- _ => destruct F as [(? & _ & F) | [_ F]]
         end;
    try discriminate;
    repeat match goal with
           | F : Some _ = Some _ |- _ => injection F as <-
           end;
    repeat match goal with
           | F : str_schema (Some 1) (Some 100) _ = Valid _ |- _ =>
               apply str_schema_bounds in F; destruct F as (_ & Hmin & Hmax);
               specialize (Hmin 1 eq_refl); specialize (Hmax 100 eq_refl)
           | F : field_validator price_not_too_high _ = Valid _ |- _ =>
               apply price_field_bounds in F; destruct F
           | F : optional_schema (str_schema None (Some ?n)) _ = Valid _ |- _ =>
               pose proof (optional_str_bounds n _ _ F); clear F
           end;
    repeat split; auto; try lia; try discriminate.
Qed.

Lemma accepted_request_meets_constraints_witness :
  1 <= String.length (name (product test_request)) <= 100
  /\ fgt (price (product test_request)) f_zero = true
  /\ fgt (price (product test_request)) f_million = false
  /\ (forall t, description (product test_request) = Some t -> String.length t <= 500)
  /\ (forall b, brand (product test_request) = Some b -> String.length b <= 50).
Proof.
  exact (accepted_request_meets_constraints Reference.runtime test_data test_request
           eq_refl).
Defined.

Lemma errors_of_under {A} (l : loc_item) (v : validation A) :
  errors_of (under l v) = map (at_loc l) (errors_of v).
Proof. destruct v; reflexivity. Qed.

(** One error is enough for [validate_input] to return [None]. *)
Lemma validate_input_rejects (rt : Runtime) (d : pydict) (e : ErrorDetails) :
  In e (errors_of (ProductListingRequest_fields rt d)) ->
  result (validate_input rt (PDict d)) = Returns None.
Proof.
  rewrite validate_input_result.
  destruct (ProductListingRequest_fields rt d); [contradiction | reflexivity].
Qed.

(** The errors of the product are errors of the request, under [product]. *)
Lemma product_error_in_request (rt : Runtime) (d prod : pydict) (e : ErrorDetails) :
  dict_get "product" d = Some (PDict prod) ->
  In e (errors_of (Product_fields rt prod)) ->
  In (at_loc (LocKey "product") e) (errors_of (ProductListingRequest_fields rt d)).
Proof.
  intros Hprod He. rewrite ProductListingRequest_errors.
  rewrite (field_present "product" _ _ d _ Hprod), errors_of_under.
  cbn [model_schema]. apply in_or_app. left. now apply in_map.
Qed.

(** X13. The errors that [validate_input] prints for a request with a
    product are the errors of the six fields of the product, in the order of
    their declaration and each under the path [product], followed by those of
    the three generation parameters: every field is checked, whatever the
    other fields hold. *)
Theorem errors_in_declaration_order (rt : Runtime) (d prod : pydict) :
  dict_get "product" d = Some (PDict prod) ->
  errors_of (ProductListingRequest_fields rt d)
  = (map (at_loc (LocKey "product"))
       (errors_of (field "name" None (str_schema (Some 1) (Some 100)) prod)
        ++ errors_of (field "price" None
             (fun x => field_validator price_not_too_high (float_gt0_schema rt x)) prod)
        ++ errors_of (field "category" None category_schema prod)
        ++ errors_of (field "description" (Some None)
             (optional_schema (str_schema None (Some 500))) prod)
        ++ errors_of (field "brand" (Some None)
             (optional_schema (str_schema None (Some 50))) prod)
        ++ errors_of (field "in_stock" (Some true) bool_schema prod))
     ++ errors_of (field "target_audience" (Some "general") (str_schema None None) d)
     ++ errors_of (field "tone" (Some "professional") (str_schema None None) d)
     ++ errors_of (field "language" (Some "English") (str_schema None None) d))%list.
Proof.
  intros Hprod. rewrite ProductListingRequest_errors.
  rewrite (field_present "product" _ _ d _ Hprod), errors_of_under.
  cbn [model_schema]. now rewrite Product_errors.
Qed.

Lemma errors_in_declaration_order_witness :
  errors_of (ProductListingRequest_fields Reference.runtime
               [("product", PDict [("name", PStr EmptyString);
                                   ("price", PInt 2000000);
                                   ("category", PStr "toys")]);
                ("tone", PInt 3)])
  = [ {| err_type := "string_too_short";
         err_loc := [LocKey "product"; LocKey "name"];
         err_msg := "String should have at least 1 character" |};
      {| err_type := "value_error";
         err_loc := [LocKey "product"; LocKey "price"];
         err_msg := "Value error, Price too high" |};
      {| err_type := "enum";
         err_loc := [LocKey "product"; LocKey "category"];
         err_msg :=
           "Input should be 'electronics', 'clothing', 'home_goods', 'books' or 'other'" |};
      {| err_type := "string_type";
         err_loc := [LocKey "tone"];
         err_msg := "Input should be a valid string" |} ].
Proof.
  rewrite (errors_in_declaration_order Reference.runtime
             [("product", PDict [("name", PStr EmptyString);
                                 ("price", PInt 2000000);
                                 ("category", PStr "toys")]);
              ("tone", PInt 3)]
             [("name", PStr EmptyString); ("price", PInt 2000000);
              ("category", PStr "toys")] eq_refl).
  vm_compute. reflexivity.
Defined.

Lemma category_of_value_value (c : ProductCategory) :
  category_of_value (category_value c) = Some c.
Proof. destruct c; reflexivity. Qed.

Lemma category_of_value_inv (s : string) (c : ProductCategory) :
  category_of_value s = Some c -> s = category_value c.
Proof.
  unfold category_of_value, all_categories. cbn [find].
  repeat match goal with
         | |- context [String.eqb ?a s] =>
             destruct (String.eqb_spec a s) as [<- | _]; [now intros [= <-]|]
         end.
  discriminate.
Qed.

(** X14. A category is accepted exactly when it is one of the five values
    of the enumeration (or a member of it): for every other value, whatever
    its type, [validate_input] returns [None] and the error is at
    [product.category]. *)
Theorem category_outside_enumeration (rt : Runtime) (d prod : pydict) (x : pyval) :
  dict_get "product" d = Some (PDict prod) ->
  dict_get "category" prod = Some x ->
  (forall c, category_schema x = Valid c <->
             x = PEnum c \/ x = PStr (category_value c))
  /\ ((forall c, x <> PEnum c /\ x <> PStr (category_value c)) ->
      result (validate_input rt (PDict d)) = Returns None
      /\ In {| err_type := "enum";
               err_loc := [LocKey "product"; LocKey "category"];
               err_msg :=
                 "Input should be 'electronics', 'clothing', 'home_goods', 'books' or 'other'" |}
            (errors_of (ProductListingRequest_fields rt d))).
Proof.
  intros Hprod Hcat.
  assert (Hiff : forall c, category_schema x = Valid c <->
                           x = PEnum c \/ x = PStr (category_value c)).
  { intros c. split.
    - destruct x; cbn [category_schema]; try discriminate.
      + destruct (category_of_value s) as [c'|] eqn:Hs; [|discriminate].
        intros [= <-]. right. f_equal. now apply category_of_value_inv.
      + intros [= <-]. now left.
    - intros [-> | ->]; cbn [category_schema]; [reflexivity|].
      now rewrite category_of_value_value. }
  split; [exact Hiff|].
  intros Hout.
  assert (Hin : In {| err_type := "enum";
                      err_loc := [LocKey "product"; LocKey "category"];
                      err_msg :=
                        "Input should be 'electronics', 'clothing', 'home_goods', 'books' or 'other'" |}
                   (errors_of (ProductListingRequest_fields rt d))).
  { apply (product_error_in_request rt d prod
             (at_loc (LocKey "category")
                (error "enum"
                   "Input should be 'electronics', 'clothing', 'home_goods', 'books' or 'other'"))
             Hprod).
    rewrite Product_errors, (field_present "category" _ _ prod _ Hcat), errors_of_under.
    apply in_or_app. right. apply in_or_app. right. apply in_or_app. left.
    assert (Hbad : category_schema x
                   = Invalid [error "enum"
                       "Input should be 'electronics', 'clothing', 'home_goods', 'books' or 'other'"]).
    { destruct x; try reflexivity.
      - cbn [category_schema].
        destruct (category_of_value s) as [c|] eqn:Hs; [|reflexivity].
        apply category_of_value_inv in Hs. subst s.
        destruct (Hout c) as [_ Hne]. now contradiction Hne.
      - destruct (Hout c) as [Hne _]. now contradiction Hne. }
    rewrite Hbad. cbn. now left. }
  split; [exact (validate_input_rejects rt d _ Hin) | exact Hin].
Qed.

Lemma category_outside_enumeration_witness :
  result (validate_input Reference.runtime
            (PDict [("product", PDict [("name", PStr "Mug"); ("price", PInt 10);
                                       ("category", PStr "toys")])]))
  = Returns None.
Proof.
  refine (proj1 (proj2 (category_outside_enumeration Reference.runtime
            [("product", PDict [("name", PStr "Mug"); ("price", PInt 10);
                                ("category", PStr "toys")])]
            [("name", PStr "Mug"); ("price", PInt 10); ("category", PStr "toys")]
            (PStr "toys") eq_refl eq_refl) _)).
  intros c. split; [discriminate|]. destruct c; discriminate.
Defined.

Lemma field_absent {A} (k : string) (schema : pyval -> validation A) (d : pydict) :
  dict_get k d = None ->
  field k None schema d = Invalid [at_loc (LocKey k) (error "missing" "Field required")].
Proof. unfold field. now intros ->. Qed.

(** X15. A request without [product], or whose product lacks [name],
    [price] or [category], is refused: [validate_input] returns [None], and
    among the errors is [Field required] at the path of the missing field. *)
Theorem missing_required_field (rt : Runtime) (d : pydict) (path : list loc_item) :
  (dict_get "product" d = None /\ path = [LocKey "product"])
  \/ (exists prod k,
        dict_get "product" d = Some (PDict prod)
        /\ (k = "name" \/ k = "price" \/ k = "category")
        /\ dict_get k prod = None
        /\ path = [LocKey "product"; LocKey k]) ->
  result (validate_input rt (PDict d)) = Returns None
  /\ In {| err_type := "missing"; err_loc := path; err_msg := "Field required" |}
        (errors_of (ProductListingRequest_fields rt d)).
Proof.
  intros H.
  assert (Hin : In {| err_type := "missing"; err_loc := path;
                      err_msg := "Field required" |}
                   (errors_of (ProductListingRequest_fields rt d))).
  { destruct H as [[Hnone ->] | (prod & k & Hprod & Hk & Hnone & ->)].
    - rewrite ProductListingRequest_errors, (field_absent "product" _ d Hnone).
      cbn. now left.
    - apply (product_error_in_request rt d prod
               (at_loc (LocKey k) (error "missing" "Field required")) Hprod).
      rewrite Product_errors.
      destruct Hk as [-> | [-> | ->]]; rewrite (field_absent _ _ prod Hnone);
        rewrite !in_app_iff; cbn [errors_of In]; auto 10. }
  split; [exact (validate_input_rejects rt d _ Hin) | exact Hin].
Qed.

Lemma missing_required_field_witness :
  result (validate_input Reference.runtime
            (PDict [("product", PDict [("price", PInt 10); ("category", PStr "other")])]))
  = Returns None
  /\ result (validate_input Reference.runtime (PDict [("tone", PStr "warm")]))
     = Returns None.
Proof.
  split.
  - refine (proj1 (missing_required_field Reference.runtime
              [("product", PDict [("price", PInt 10); ("category", PStr "other")])]
              [LocKey "product"; LocKey "name"] _)).
    right. exists [("price", PInt 10); ("category", PStr "other")], "name".
    repeat split; auto.
  - refine (proj1 (missing_required_field Reference.runtime [("tone", PStr "warm")]
              [LocKey "product"] _)).
    left. split; reflexivity.
Defined.

Lemma validate_input_invalid (rt : Runtime) (d : pydict) :
  is_valid (ProductListingRequest_fields rt d) = false ->
  result (validate_input rt (PDict d)) = Returns None.
Proof.
  rewrite validate_input_result.
  destruct (ProductListingRequest_fields rt d); [discriminate | reflexivity].
Qed.

Lemma str_schema_too_long (min_length : option nat) (n : nat) (s : string) :
  n < String.length s ->
  is_valid (str_schema min_length (Some n) (PStr s)) = false.
Proof.
  intros Hlen. unfold str_schema. cbn [as_str].
  destruct (match min_length with
            | Some m => (String.length s <? m)%nat
            | None => false
            end); [reflexivity|].
  destruct (Nat.ltb_spec n (String.length s)); [reflexivity | lia].
Qed.

(** X16. The length bounds of the text fields are enforced: a product whose
    name is empty or longer than 100 characters, whose description is longer
    than 500 characters or whose brand is longer than 50 is refused. *)
Theorem text_length_bounds (rt : Runtime) (d prod : pydict) :
  dict_get "product" d = Some (PDict prod) ->
  (exists s, dict_get "name" prod = Some (PStr s)
             /\ (s = EmptyString \/ 100 < String.length s))
  \/ (exists s, dict_get "description" prod = Some (PStr s) /\ 500 < String.length s)
  \/ (exists s, dict_get "brand" prod = Some (PStr s) /\ 50 < String.length s) ->
  result (validate_input rt (PDict d)) = Returns None.
Proof.
  intros Hprod H. apply validate_input_invalid.
  unfold ProductListingRequest_fields.
  rewrite !is_valid_vap, (field_present "product" _ _ d _ Hprod), is_valid_under.
  cbn [model_schema]. unfold Product_fields. rewrite !is_valid_vap.
  destruct H as [(s & Hs & Hlen) | [(s & Hs & Hlen) | (s & Hs & Hlen)]];
    rewrite (field_present _ _ _ prod _ Hs), is_valid_under.
  - replace (is_valid (str_schema (Some 1) (Some 100) (PStr s))) with false.
    { cbn [is_valid andb]. now rewrite ?andb_false_r. }
    destruct Hlen as [-> | Hlen]; [reflexivity|].
    symmetry. now apply str_schema_too_long.
  - replace (is_valid (optional_schema (str_schema None (Some 500)) (PStr s)))
      with false.
    { cbn [is_valid andb]. now rewrite ?andb_false_r. }
    cbn [optional_schema].
    pose proof (str_schema_too_long None 500 s Hlen) as Hbad.
    destruct (str_schema None (Some 500) (PStr s)); [discriminate Hbad | reflexivity].
  - replace (is_valid (optional_schema (str_schema None (Some 50)) (PStr s)))
      with false.
    { cbn [is_valid andb]. now rewrite ?andb_false_r. }
    cbn [optional_schema].
    pose proof (str_schema_too_long None 50 s Hlen) as Hbad.
    destruct (str_schema None (Some 50) (PStr s)); [discriminate Hbad | reflexivity].
Qed.

Lemma text_length_bounds_witness :
  result (validate_input Reference.runtime
            (plain_request (PStr EmptyString) (PInt 10))) = Returns None
  /\ result (validate_input Reference.runtime
               (PDict [("product",
                        PDict [("name", PStr "Mug"); ("price", PInt 10);
                               ("category", PStr "other");
                               ("brand", PStr (str_mul "b" 51))])]))
     = Returns None.
Proof.
  split.
  - apply (text_length_bounds Reference.runtime
             [("product", PDict (plain_product (PStr EmptyString) (PInt 10)))]
             (plain_product (PStr EmptyString) (PInt 10)) eq_refl).
    left. exists EmptyString. split; [reflexivity | now left].
  - apply (text_length_bounds Reference.runtime
             [("product",
               PDict [("name", PStr "Mug"); ("price", PInt 10);
                      ("category", PStr "other");
                      ("brand", PStr (str_mul "b" 51))])]
             [("name", PStr "Mug"); ("price", PInt 10);
              ("category", PStr "other");
              ("brand", PStr (str_mul "b" 51))] eq_refl).
    right. right. exists (str_mul "b" 51). split; [reflexivity | cbn; lia].
Defined.

(** X17. Fields that the request leaves out take the defaults of the
    models: [general], [professional] and [English] for the three generation
    parameters, in stock for [in_stock], and no description and no brand;
    a description or a brand given as [None] is no description, no brand. *)
Theorem absent_fields_take_defaults (rt : Runtime) (d prod : pydict)
  (validated : ProductListingRequest) :
  ProductListingRequest_fields rt d = Valid validated ->
  dict_get "product" d = Some (PDict prod) ->
  (dict_get "target_audience" d = None -> target_audience validated = "general")
  /\ (dict_get "tone" d = None -> tone validated = "professional")
  /\ (dict_get "language" d = None -> language validated = "English")
  /\ (dict_get "in_stock" prod = None -> in_stock (product validated) = true)
  /\ (dict_get "description" prod = None \/ dict_get "description" prod = Some PNone ->
      description (product validated) = None)
  /\ (dict_get "brand" prod = None \/ dict_get "brand" prod = Some PNone ->
      brand (product validated) = None).
Proof.
  intros H Hprod. unfold ProductListingRequest_fields in H.
  rewrite (field_present "product" _ _ d _ Hprod) in H. cbn [model_schema] in H.
  unfold Product_fields in H.
  repeat (apply vap_valid in H; destruct H as (? & ? & H & ? & ?)).
  injection H as <-. subst.
  match goal with
  | F : under _ _ = Valid _ |- _ => apply under_valid in F; rename F into Hp
  end.
  repeat (apply vap_valid in Hp; destruct Hp as (? & ? & Hp & ? & ?)).
  injection Hp as <-. subst.
  cbn [product target_audience tone language in_stock description brand].
  unfold field in *.
  repeat split; intros Hk;
    try (destruct Hk as [Hk | Hk]);
    rewrite Hk in *; cbn in *; congruence.
Qed.

Lemma absent_fields_take_defaults_witness :
  let validated :=
    {| product :=
         {| name := "Mug"; price := float_of_Z 10; category := OTHER;
            description := None; brand := None; in_stock := true |};
       target_audience := "general";
       tone := "professional";
       language := "English" |} in
  ProductListingRequest_fields Reference.runtime
    [("product", PDict (plain_product (PStr "Mug") (PInt 10)))] = Valid validated
  /\ target_audience validated = "general"
  /\ tone validated = "professional"
  /\ language validated = "English"
  /\ in_stock (product validated) = true
  /\ description (product validated) = None
  /\ brand (product validated) = None.
Proof.
  intros validated.
  assert (Hv : ProductListingRequest_fields Reference.runtime
                 [("product", PDict (plain_product (PStr "Mug") (PInt 10)))]
               = Valid validated) by (vm_compute; reflexivity).
  destruct (absent_fields_take_defaults Reference.runtime
              [("product", PDict (plain_product (PStr "Mug") (PInt 10)))]
              (plain_product (PStr "Mug") (PInt 10)) validated Hv eq_refl)
    as (Ha & Ht & Hl & Hs & Hd & Hb).
  exact (conj Hv (conj (Ha eq_refl) (conj (Ht eq_refl) (conj (Hl eq_refl)
           (conj (Hs eq_refl)
              (conj (Hd (or_introl eq_refl)) (Hb (or_introl eq_refl)))))))).
Defined.

(** ** validate_json_step3.py *)

Lemma Step3_name_without_letter_witness :
  is_valid (Step3.ProductListingRequest_fields Reference.runtime
              [("product", PDict (plain_product (PStr "12345") (PInt 10)))])
  = false.
Proof.
  apply (Step3_name_without_letter Reference.runtime
           [("product", PDict (plain_product (PStr "12345") (PInt 10)))]
           (plain_product (PStr "12345") (PInt 10)) (PStr "12345") eq_refl eq_refl).
  intros s [= <-]. reflexivity.
Defined.

Lemma Step3_name_trimmed_witness :
  exists prod x s,
    dict_get "product" [("product", PDict (plain_product (PStr "  Mug ") (PInt 10)))]
    = Some (PDict prod)
    /\ dict_get "name" prod = Some x
    /\ as_str x = Some s
    /\ any isalpha s = true
    /\ "Mug" = strip s.
Proof.
  exact (Step3_name_trimmed Reference.runtime
           [("product", PDict (plain_product (PStr "  Mug ") (PInt 10)))]
           {| Step3.product :=
                {| Step3.name := "Mug"; Step3.price := float_of_Z 10;
                   Step3.category := OTHER; Step3.description := None;
                   Step3.brand := None; Step3.in_stock := true |};
              Step3.target_audience := "general";
              Step3.tone := "professional";
              Step3.language := "English" |}
           eq_refl).
Defined.

Lemma Step3_price_range_witness :
  is_valid (Step3.ProductListingRequest_fields Reference.runtime
              [("product", PDict (plain_product (PStr "Mug") (PInt 0)))]) = false
  /\ exists validated,
       Step3.ProductListingRequest_new Reference.runtime
         (PDict [("product", PDict (plain_product (PStr "Mug") (PInt 1000000)))])
       = Returns validated
       /\ Step3.price (Step3.product validated) = f_million.
Proof.
  split.
  - apply (Step3_price_range Reference.runtime
             [("product", PDict (plain_product (PStr "Mug") (PInt 0)))]
             (plain_product (PStr "Mug") (PInt 0)) (PInt 0) f_zero);
      try reflexivity.
    left. reflexivity.
  - apply (Step3_price_range Reference.runtime
             [("product", PDict (plain_product (PStr "Mug") (PInt 1000000)))]
             (plain_product (PStr "Mug") (PInt 1000000)) (PInt 1000000) f_million);
      reflexivity.
Defined.

Lemma price_validators_agree (v : validation pyfloat) (f : pyfloat) :
  field_validator Step3.price_not_too_high v = Valid f ->
  field_validator price_not_too_high v = Valid f.
Proof.
  destruct v as [g|]; [|discriminate]. cbn [field_validator].
  unfold Step3.price_not_too_high, price_not_too_high.
  destruct (fgt g f_million); [discriminate | auto].
Qed.

Lemma name_validator_valid (v : validation string) (n : string) :
  field_validator Step3.name_must_contain_letters v = Valid n ->
  exists s, v = Valid s /\ any isalpha s = true /\ n = strip s.
Proof.
  destruct v as [s|]; [|discriminate]. cbn [field_validator].
  unfold Step3.name_must_contain_letters.
  destruct (any isalpha s) eqn:Hl; cbn [negb]; [|discriminate].
  intros [= <-]. exists s. auto.
Qed.

(** X21. The models of the pipeline accept whatever the models of
    [validate_json_step3.py] accept: a request that the Step 3 script
    validates is accepted by [step4_integration.py] too, with the same price,
    category, description, brand, stock flag and generation parameters; only
    the name differs, the Step 3 name being the Step 4 name without the
    whitespace around it. *)
Theorem step3_accepted_is_step4_accepted (rt : Runtime) (d : pydict)
  (v3 : Step3.ProductListingRequest) :
  Step3.ProductListingRequest_fields rt d = Valid v3 ->
  exists v4,
    ProductListingRequest_fields rt d = Valid v4
    /\ Step3.name (Step3.product v3) = strip (name (product v4))
    /\ any isalpha (name (product v4)) = true
    /\ Step3.price (Step3.product v3) = price (product v4)
    /\ Step3.category (Step3.product v3) = category (product v4)
    /\ Step3.description (Step3.product v3) = description (product v4)
    /\ Step3.brand (Step3.product v3) = brand (product v4)
    /\ Step3.in_stock (Step3.product v3) = in_stock (product v4)
    /\ Step3.target_audience v3 = target_audience v4
    /\ Step3.tone v3 = tone v4
    /\ Step3.language v3 = language v4.
Proof.
  intros H. unfold Step3.ProductListingRequest_fields in H.
  apply vap_valid in H. destruct H as (g3 & la & H & Hlang & ->).
  apply vap_valid in H. destruct H as (g2 & to & H & Htone & ->).
  apply vap_valid in H. destruct H as (g1 & ta & H & Haud & ->).
  apply vap_valid in H. destruct H as (g0 & p3 & H & Hprod & ->).
  injection H as <-.
  apply field_valid in Hprod. destruct Hprod as [(y & Hy & Hp) | [_ Hp]]; [|discriminate].
  destruct y as [| | | | | |prod|]; try discriminate. cbn [model_schema] in Hp.
  unfold Step3.Product_fields in Hp.
  apply vap_valid in Hp. destruct Hp as (h5 & st & Hp & Hstock & ->).
  apply vap_valid in Hp. destruct Hp as (h4 & br & Hp & Hbrand & ->).
  apply vap_valid in Hp. destruct Hp as (h3 & de & Hp & Hdesc & ->).
  apply vap_valid in Hp. destruct Hp as (h2 & ca & Hp & Hcat & ->).
  apply vap_valid in Hp. destruct Hp as (h1 & pr & Hp & Hprice & ->).
  apply vap_valid in Hp. destruct Hp as (h0 & na & Hp & Hname & ->).
  injection Hp as <-.
  apply field_valid in Hname.
  destruct Hname as [(xn & Hxn & Hname) | [_ Hname]]; [|discriminate].
  apply name_validator_valid in Hname. destruct Hname as (s & Hs & Hletters & ->).
  apply field_valid in Hprice.
  destruct Hprice as [(xp & Hxp & Hprice) | [_ Hprice]]; [|discriminate].
  apply price_validators_agree in Hprice.
  exists {| product :=
              {| name := s; price := pr; category := ca; description := de;
                 brand := br; in_stock := st |};
            target_audience := ta; tone := to; language := la |}.
  split; [|repeat split; assumption].
  unfold ProductListingRequest_fields.
  rewrite (field_present "product" _ _ d _ Hy), Haud, Htone, Hlang.
  cbn [model_schema]. unfold Product_fields.
  rewrite (field_present "name" _ _ prod _ Hxn), Hs.
  rewrite (field_present "price" _ _ prod _ Hxp), Hprice.
  rewrite Hcat, Hdesc, Hbrand, Hstock. reflexivity.
Qed.

Lemma step3_accepted_is_step4_accepted_witness :
  exists v4,
    ProductListingRequest_fields Reference.runtime
      [("product", PDict (plain_product (PStr "  Mug ") (PInt 10)))] = Valid v4
    /\ "Mug" = strip (name (product v4))
    /\ any isalpha (name (product v4)) = true
    /\ float_of_Z 10 = price (product v4)
    /\ OTHER = category (product v4)
    /\ None = description (product v4)
    /\ None = brand (product v4)
    /\ true = in_stock (product v4)
    /\ "general" = target_audience v4
    /\ "professional" = tone v4
    /\ "English" = language v4.
Proof.
  exact (step3_accepted_is_step4_accepted Reference.runtime
           [("product", PDict (plain_product (PStr "  Mug ") (PInt 10)))]
           {| Step3.product :=
                {| Step3.name := "Mug"; Step3.price := float_of_Z 10;
                   Step3.category := OTHER; Step3.description := None;
                   Step3.brand := None; Step3.in_stock := true |};
              Step3.target_audience := "general";
              Step3.tone := "professional";
              Step3.language := "English" |}
           eq_refl).
Defined.

(** ** The output schema *)

Lemma validate_chatgpt_response_returns (rt : Runtime) (response_text : string)
  (validated : ChatGPTResponse) :
  result (validate_chatgpt_response rt response_text) = Returns (Some validated) ->
  exists d, json_loads rt response_text = Loaded (PDict d)
            /\ ChatGPTResponse_fields d = Valid validated.
Proof.
  rewrite validate_chatgpt_response_cases.
  destruct (json_loads rt response_text) as [data| |e]; try discriminate.
  unfold construct. destruct data as [| | | | | |d|]; try discriminate.
  destruct (ChatGPTResponse_fields d) as [v|es] eqn:Hd; [|discriminate].
  intros [= <-]. eauto.
Qed.

Lemma items_schema_length {A} (schema : pyval -> validation A) (l : list pyval) :
  forall i out, items_schema schema i l = Valid out -> List.length out = List.length l.
Proof.
  induction l as [|x l IH]; intros i out H; cbn in H.
  - now injection H as <-.
  - apply vap_valid in H. destruct H as (g & tl & Hg & Htl & ->).
    destruct (under (LocIndex i) (schema x)) as [a|]; [|discriminate].
    cbn in Hg. injection Hg as <-. cbn. f_equal. exact (IH _ _ Htl).
Qed.

Lemma list_schema_bounds {A} (schema : pyval -> validation A)
  (min_length max_length : nat) (x : pyval) (out : list A) :
  list_schema schema min_length max_length x = Valid out ->
  min_length <= List.length out <= max_length.
Proof.
  unfold list_schema. destruct x as [| | | | |l| |]; try discriminate.
  destruct (Nat.ltb_spec max_length (List.length l)); [discriminate|].
  destruct (items_schema schema 0 l) as [o|] eqn:Hitems; [|discriminate].
  destruct (Nat.ltb_spec (List.length o) min_length); [discriminate|].
  intros [= <-]. apply items_schema_length in Hitems. lia.
Qed.

(** X22. Every response that [validate_chatgpt_response] returns meets the
    constraints of [ChatGPTResponse]: a title of 10 to 100 characters, a
    description of 100 to 1000, 3 to 10 features and keywords of at least 10
    characters. *)
Theorem accepted_response_meets_constraints (rt : Runtime) (response_text : string)
  (validated : ChatGPTResponse) :
  result (validate_chatgpt_response rt response_text) = Returns (Some validated) ->
  10 <= String.length (title validated) <= 100
  /\ 100 <= String.length (description' validated) <= 1000
  /\ 3 <= List.length (features validated) <= 10
  /\ 10 <= String.length (keywords validated).
Proof.
  intros H. apply validate_chatgpt_response_returns in H.
  destruct H as (d & _ & H). unfold ChatGPTResponse_fields in H.
  apply vap_valid in H. destruct H as (g3 & kw & H & Hkw & ->).
  apply vap_valid in H. destruct H as (g2 & fe & H & Hfe & ->).
  apply vap_valid in H. destruct H as (g1 & de & H & Hde & ->).
  apply vap_valid in H. destruct H as (g0 & ti & H & Hti & ->).
  injection H as <-. cbn [title description' features keywords].
  apply field_valid in Hkw. destruct Hkw as [(? & _ & Hkw) | [_ Hkw]]; [|discriminate].
  apply field_valid in Hfe. destruct Hfe as [(? & _ & Hfe) | [_ Hfe]]; [|discriminate].
  apply field_valid in Hde. destruct Hde as [(? & _ & Hde) | [_ Hde]]; [|discriminate].
  apply field_valid in Hti. destruct Hti as [(? & _ & Hti) | [_ Hti]]; [|discriminate].
  apply str_schema_bounds in Hkw. destruct Hkw as (_ & Hkw & _).
  apply str_schema_bounds in Hde. destruct Hde as (_ & Hde1 & Hde2).
  apply str_schema_bounds in Hti. destruct Hti as (_ & Hti1 & Hti2).
  apply list_schema_bounds in Hfe.
  specialize (Hkw 10 eq_refl). specialize (Hde1 100 eq_refl).
  specialize (Hde2 1000 eq_refl). specialize (Hti1 10 eq_refl).
  specialize (Hti2 100 eq_refl). lia.
Qed.

Lemma accepted_response_meets_constraints_witness :
  10 <= String.length (title good_response) <= 100
  /\ 100 <= String.length (description' good_response) <= 1000
  /\ 3 <= List.length (features good_response) <= 10
  /\ 10 <= String.length (keywords good_response).
Proof.
  apply (accepted_response_meets_constraints Reference.runtime good_reply good_response).
  vm_compute. reflexivity.
Defined.

Lemma items_of_strings (l : list string) (i : nat) :
  items_schema (str_schema None None) i (map PStr l) = Valid l.
Proof.
  revert i. induction l as [|s l IH]; intros i; [reflexivity|].
  cbn [map items_schema]. now rewrite IH.
Qed.

Lemma list_of_strings_again (x : pyval) (l : list string) :
  list_schema (str_schema None None) 3 10 x = Valid l ->
  list_schema (str_schema None None) 3 10 (PList (map PStr l)) = Valid l.
Proof.
  intros H. pose proof (list_schema_bounds _ _ _ _ _ H) as [Hmin Hmax].
  unfold list_schema. rewrite length_map.
  destruct (Nat.ltb_spec 10 (List.length l)); [lia|].
  rewrite items_of_strings.
  destruct (Nat.ltb_spec (List.length l) 3); [lia | reflexivity].
Qed.

(** X23. A response that [validate_chatgpt_response] returned, serialised
    with [.dict()] as the success result holds it, validates again to the
    same response, field for field. *)
Theorem response_dict_roundtrip (rt : Runtime) (response_text : string)
  (validated : ChatGPTResponse) :
  result (validate_chatgpt_response rt response_text) = Returns (Some validated) ->
  construct ChatGPTResponse_fields (ChatGPTResponse_dict validated) = Returns validated.
Proof.
  intros H. apply validate_chatgpt_response_returns in H.
  destruct H as (d & _ & H). unfold ChatGPTResponse_fields in H.
  apply vap_valid in H. destruct H as (g3 & kw & H & Hkw & ->).
  apply vap_valid in H. destruct H as (g2 & fe & H & Hfe & ->).
  apply vap_valid in H. destruct H as (g1 & de & H & Hde & ->).
  apply vap_valid in H. destruct H as (g0 & ti & H & Hti & ->).
  injection H as <-.
  apply field_valid in Hkw. destruct Hkw as [(? & _ & Hkw) | [_ Hkw]]; [|discriminate].
  apply field_valid in Hfe. destruct Hfe as [(? & _ & Hfe) | [_ Hfe]]; [|discriminate].
  apply field_valid in Hde. destruct Hde as [(? & _ & Hde) | [_ Hde]]; [|discriminate].
  apply field_valid in Hti. destruct Hti as [(? & _ & Hti) | [_ Hti]]; [|discriminate].
  apply str_schema_again in Hkw, Hde, Hti. apply list_of_strings_again in Hfe.
  unfold ChatGPTResponse_dict. cbn [title description' features keywords construct].
  unfold ChatGPTResponse_fields. lookup_fields.
  now rewrite Hti, Hde, Hfe, Hkw.
Qed.

Lemma response_dict_roundtrip_witness :
  construct ChatGPTResponse_fields (ChatGPTResponse_dict good_response)
  = Returns good_response.
Proof.
  apply (response_dict_roundtrip Reference.runtime good_reply good_response).
  vm_compute. reflexivity.
Defined.

(** ** Keys that no field names *)

(** X24. A key that no field of the models names is ignored: adding one to
    the request, or to its product, with any value, changes neither what
    [validate_input] prints nor what it returns. *)
Theorem unknown_keys_are_ignored (rt : Runtime) (d prod : pydict)
  (k : string) (v : pyval) :
  dict_get "product" d = Some (PDict prod) ->
  ~ In k ["product"; "target_audience"; "tone"; "language";
          "name"; "price"; "category"; "description"; "brand"; "in_stock"] ->
  validate_input rt (PDict (dict_set k v d)) = validate_input rt (PDict d)
  /\ validate_input rt (PDict (dict_set "product" (PDict (dict_set k v prod)) d))
     = validate_input rt (PDict d).
Proof.
  intros Hprod Hk. cbn [In] in Hk.
  assert (Hne : forall k', In k' ["product"; "target_audience"; "tone"; "language";
                                  "name"; "price"; "category"; "description";
                                  "brand"; "in_stock"] -> k <> k').
  { intros k' Hin ->. apply Hk. cbn [In] in Hin. tauto. }
  assert (Hprodk : Product_fields rt (dict_set k v prod) = Product_fields rt prod).
  { unfold Product_fields.
    rewrite !field_set_other by (apply Hne; cbn [In]; tauto). reflexivity. }
  split; rewrite !validate_input_cases; cbn [construct]; f_equal.
  - unfold ProductListingRequest_fields.
    rewrite !field_set_other by (apply Hne; cbn [In]; tauto). reflexivity.
  - unfold ProductListingRequest_fields.
    rewrite field_set_same, (field_present "product" _ _ d _ Hprod).
    rewrite !field_set_other by discriminate.
    cbn [model_schema]. now rewrite Hprodk.
Qed.

Lemma unknown_keys_are_ignored_witness :
  validate_input Reference.runtime
    (PDict (dict_set "colour" (PStr "red")
              [("product", PDict (plain_product (PStr "Mug") (PInt 10)))]))
  = validate_input Reference.runtime
      (PDict [("product", PDict (plain_product (PStr "Mug") (PInt 10)))]).
Proof.
  refine (proj1 (unknown_keys_are_ignored Reference.runtime
            [("product", PDict (plain_product (PStr "Mug") (PInt 10)))]
            (plain_product (PStr "Mug") (PInt 10)) "colour" (PStr "red") eq_refl _)).
  cbn [In]. intros H.
  repeat (destruct H as [H | H]; [discriminate H|]). exact H.
Defined.

(** ** The features of a response *)

Lemma items_schema_error {A} (schema : pyval -> validation A) (e : ErrorDetails) :
  forall (l : list pyval) (i n : nat) (x : pyval),
    nth_error l n = Some x ->
    In e (errors_of (schema x)) ->
    In (at_loc (LocIndex (i + n)) e) (errors_of (items_schema schema i l)).
Proof.
  induction l as [|y l IH]; intros i n x Hn He; [now destruct n|].
  cbn [items_schema]. rewrite errors_of_vap. apply in_or_app.
  destruct n as [|n]; cbn in Hn.
  - injection Hn as ->. left. rewrite Nat.add_0_r.
    destruct (schema x) as [a|es]; [contradiction|]. cbn in *. now apply in_map.
  - right. replace (i + S n) with (S i + n) by lia. now apply (IH _ _ x).
Qed.

(** X25. Every feature must be a string: when the reply parses to an object
    whose [features] is a list of at most 10 items, one of which is not a
    string, [validate_chatgpt_response] returns [None], and among the errors
    is [Input should be a valid string] at the path [features], index of the
    item. *)
Theorem feature_that_is_no_string (rt : Runtime) (response_text : string)
  (d : pydict) (l : list pyval) (n : nat) (x : pyval) :
  json_loads rt response_text = Loaded (PDict d) ->
  dict_get "features" d = Some (PList l) ->
  List.length l <= 10 ->
  nth_error l n = Some x ->
  as_str x = None ->
  result (validate_chatgpt_response rt response_text) = Returns None
  /\ In {| err_type := "string_type";
           err_loc := [LocKey "features"; LocIndex n];
           err_msg := "Input should be a valid string" |}
        (errors_of (ChatGPTResponse_fields d)).
Proof.
  intros Hj Hfe Hlen Hn Hx.
  assert (Hin : In {| err_type := "string_type";
                      err_loc := [LocKey "features"; LocIndex n];
                      err_msg := "Input should be a valid string" |}
                   (errors_of (ChatGPTResponse_fields d))).
  { unfold ChatGPTResponse_fields. rewrite !errors_of_vap, !in_app_iff.
    left. right. rewrite (field_present "features" _ _ d _ Hfe), errors_of_under.
    apply (in_map (at_loc (LocKey "features"))
             (errors_of (list_schema (str_schema None None) 3 10 (PList l)))
             (at_loc (LocIndex n) (error "string_type" "Input should be a valid string"))).
    unfold list_schema.
    destruct (Nat.ltb_spec 10 (List.length l)); [lia|].
    pose proof (items_schema_error (str_schema None None)
                  (error "string_type" "Input should be a valid string")
                  l 0 n x Hn) as Hitem.
    cbn [Nat.add] in Hitem.
    destruct (items_schema (str_schema None None) 0 l) as [out|es].
    - exfalso. apply Hitem. unfold str_schema. rewrite Hx. now left.
    - apply Hitem. unfold str_schema. rewrite Hx. now left. }
  split; [|exact Hin].
  rewrite validate_chatgpt_response_cases, Hj. cbn [construct].
  destruct (ChatGPTResponse_fields d); [contradiction | reflexivity].
Qed.

Lemma feature_that_is_no_string_witness :
  result (validate_chatgpt_response Reference.runtime
            ("{" ++ quoted "features" ++ ": [" ++ quoted "a" ++ ", 2]}"))
  = Returns None.
Proof.
  refine (proj1 (feature_that_is_no_string Reference.runtime
            ("{" ++ quoted "features" ++ ": [" ++ quoted "a" ++ ", 2]}")
            [("features", PList [PStr "a"; PInt 2])] [PStr "a"; PInt 2] 1 (PInt 2)
            eq_refl eq_refl _ eq_refl eq_refl)).
  cbn. lia.
Defined.
